(** * Simple yt-dlp GUI: the orchestration core of the two front-ends

    A shallow embedding of [ytdlp_tkinter_gui.py] and [ytdlp_qt_gui.py]:
    the command selection of [start_download], the worker [run_process],
    the output queue and its consumer, the button gating of [validate] and
    the start-up probe.  Python [str] values are modelled as [string]
    (characters are the code points 0..255), lists of arguments as
    [list string]. *)

From Stdlib Require Import Bool Arith List String Ascii ZArith Lia.
Import ListNotations.
Local Open Scope string_scope.
Local Open Scope list_scope.

(** Concatenation of Python strings ([a + b]). *)
Infix "+++" := String.append (at level 60, right associativity).

(* ================================================================== *)
(** ** Python [str] methods used by the front-ends *)
(* ================================================================== *)

Module Str.

(** [str.isspace] on one character, for the code points below 256:
    TAB..CR, FS..US, SPACE, NEL and NBSP. *)
Definition is_space (c : ascii) : bool :=
  let n := nat_of_ascii c in
  (((9 <=? n) && (n <=? 13)) || ((28 <=? n) && (n <=? 32))
   || (n =? 133) || (n =? 160))%nat.

(** [s.lstrip()] *)
Fixpoint lstrip (s : string) : string :=
  match s with
  | EmptyString => EmptyString
  | String c r => if is_space c then lstrip r else s
  end.

(** [s.rstrip()] *)
Fixpoint rstrip (s : string) : string :=
  match s with
  | EmptyString => EmptyString
  | String c r =>
      match rstrip r with
      | EmptyString => if is_space c then EmptyString else String c EmptyString
      | r' => String c r'
      end
  end.

(** [s.strip()] *)
Definition strip (s : string) : string := rstrip (lstrip s).

(** Truth value of a [str]: the empty string is falsy. *)
Definition truthy (s : string) : bool :=
  match s with EmptyString => false | String _ _ => true end.

(** [a or b] on strings. *)
Definition or_else (a b : string) : string := if truthy a then a else b.

(** [s.startswith(p)] *)
Definition startswith (s p : string) : bool := prefix p s.

(** [s.endswith(suf)] *)
Fixpoint endswith (s suf : string) : bool :=
  (s =? suf) ||
  match s with
  | EmptyString => false
  | String _ r => endswith r suf
  end.

(** Every character of [s] is white space. *)
Fixpoint all_space (s : string) : bool :=
  match s with
  | EmptyString => true
  | String c r => is_space c && all_space r
  end.

(** First and last character of a string, when there is one. *)
Definition first (s : string) : option ascii :=
  match s with EmptyString => None | String c _ => Some c end.

Fixpoint last (s : string) : option ascii :=
  match s with
  | EmptyString => None
  | String c EmptyString => Some c
  | String _ r => last r
  end.

Definition not_space (o : option ascii) : bool :=
  match o with None => true | Some c => negb (is_space c) end.

End Str.

(** [os.path.join(a, b)] with two arguments, as [posixpath] computes it. *)
Module OsPath.

Definition sep : string := "/".

Definition join (a b : string) : string :=
  if Str.startswith b sep then b
  else if negb (Str.truthy a) || Str.endswith a sep then a +++ b
  else a +++ sep +++ b.

End OsPath.

(* ================================================================== *)
(** ** [queue.Queue] *)
(* ================================================================== *)

Module Queue.

(** A [queue.Queue(maxsize)]: [maxsize = 0] means unbounded. *)
Record t : Type := mk { maxsize : nat; items : list string }.

(** [queue.Queue()] *)
Definition new : t := {| maxsize := 0; items := [] |}.

Definition empty (q : t) : bool :=
  match items q with [] => true | _ :: _ => false end.

Definition full (q : t) : bool :=
  ((0 <? maxsize q) && (maxsize q <=? List.length (items q)))%nat.

(** [q.put(x)]: [None] when the call would block (queue full). *)
Definition put (x : string) (q : t) : option t :=
  if full q then None
  else Some {| maxsize := maxsize q; items := items q ++ [x] |}.

(** [q.get()]: [None] when the call would block (queue empty). *)
Definition get (q : t) : option (string * t) :=
  match items q with
  | [] => None
  | x :: r => Some (x, {| maxsize := maxsize q; items := r |})
  end.

End Queue.

(* ================================================================== *)
(** ** The external process and the worker thread's effects *)
(* ================================================================== *)

(** What a spawned downloader does, as far as [run_process] can see it:
    whether [subprocess.Popen] succeeds, the lines its merged output
    yields, whether reading fails after those lines, and the exit status
    returned by [wait]. *)
Record Process : Type := {
  spawn_ok : bool;
  stdout_lines : list string;
  read_fails : bool;
  exit_status : Z
}.

(** Exceptions a worker can meet. *)
Inductive Exn : Type :=
| OSError       (* raised by Popen *)
| ReadError.    (* raised while iterating process.stdout *)

(** A worker computation over the effect alphabet [Act]: the effects it
    performs on the shared state, in order, and how it ends. *)
Module Thread.
Section WithActions.
Context {Act : Type}.

Definition M (A : Type) : Type := (list Act * (Exn + A))%type.

Definition ret {A} (a : A) : M A := ([], inr a).

Definition raise {A} (e : Exn) : M A := ([], inl e).

Definition tell (a : Act) : M unit := ([a], inr tt).

Definition bind {A B} (m : M A) (k : A -> M B) : M B :=
  match m with
  | (tr, inl e) => (tr, inl e)
  | (tr, inr a) => let '(tr', r) := k a in (tr ++ tr', r)
  end.

(** [try: body finally: fin] *)
Definition try_finally {A} (body : M A) (fin : M unit) : M A :=
  let '(tr, r) := body in
  match fin with
  | (tr', inl e) => (tr ++ tr', inl e)
  | (tr', inr _) => (tr ++ tr', r)
  end.

(** [for line in process.stdout: body], threading the loop's local
    state; the stream raises after its last line when [fails]. *)
Fixpoint for_lines {S} (lines : list string) (fails : bool)
         (body : S -> string -> M S) (s : S) : M S :=
  match lines with
  | [] => if fails then raise ReadError else ret s
  | line :: rest => bind (body s line) (for_lines rest fails body)
  end.

Definition trace {A} (m : M A) : list Act := fst m.
Definition outcome {A} (m : M A) : Exn + A := snd m.

End WithActions.
End Thread.

Notation "x <- m ;; k" := (Thread.bind m (fun x => k))
  (at level 61, m at next level, right associativity).
Notation "m ;;; k" := (Thread.bind m (fun _ => k))
  (at level 61, right associativity).

(* ================================================================== *)
(** ** Command selection, shared by both [start_download]s *)
(* ================================================================== *)

Definition title_placeholder : string := "%(title)s".
Definition ext_suffix : string := ".%(ext)s".

(** [base = filename.strip() or "%(title)s"]
    [output_template = os.path.join(folder, base + ".%(ext)s")] *)
Definition output_template (folder filename : string) : string :=
  let base := Str.or_else (Str.strip filename) title_placeholder in
  OsPath.join folder (base +++ ext_suffix).

(** The three argument vectors built in [start_download]. *)
Definition audio_cmd (exe template url : string) : list string :=
  [exe; "-x"; "--audio-format"; "mp3"; "-o"; template; url].

Definition probe_cmd (exe url : string) : list string :=
  [exe; "-F"; url].

Definition video_cmd (exe fmt template url : string) : list string :=
  [exe; "-f"; fmt; "--merge-output-format"; "mp4"; "-o"; template; url].

Definition nl : string := String (ascii_of_nat 10) EmptyString.

(** A worker thread: the effects it has performed so far (oldest first)
    and those still ahead of it. *)
Record Worker (Act : Type) : Type := {
  done : list Act;
  todo : list Act
}.
Arguments done {Act} _.
Arguments todo {Act} _.

(** [threading.Thread(target=..., daemon=True).start()] *)
Definition spawn_thread {Act A} (body : Thread.M A) : Worker Act :=
  {| done := []; todo := Thread.trace body |}.

(** One scheduling step of a worker: its next effect moves to [done]. *)
Definition advance {Act} (w : Worker Act) : option (Act * Worker Act) :=
  match todo w with
  | [] => None
  | a :: rest => Some (a, {| done := done w ++ [a]; todo := rest |})
  end.

Fixpoint replace_nth {A} (i : nat) (x : A) (l : list A) : list A :=
  match l, i with
  | [], _ => []
  | _ :: r, O => x :: r
  | y :: r, S j => y :: replace_nth j x r
  end.

(* ================================================================== *)
(** ** The Tkinter front-end ([ytdlp_tkinter_gui.py]) *)
(* ================================================================== *)

Module Tk.

(** The module-level variables and the widget properties the
    orchestration reads or writes. *)
Record Gui : Type := {
  yt_dlp_path : string;
  download_type : string;           (* StringVar, "audio" or "video" *)
  url_var : string;
  format_var : string;
  filename_var : string;
  download_path : string;
  process_running : bool;           (* BooleanVar *)
  output_queue : Queue.t;
  output : list string;             (* texts inserted at the end of the Text widget *)
  download_btn : bool;              (* state "normal" (true) or "disabled" *)
  progress : bool;                  (* the indeterminate bar is animating *)
  format_entry : bool               (* the format field is gridded *)
}.

Definition set_download_type v g :=
  {| yt_dlp_path := yt_dlp_path g; download_type := v; url_var := url_var g;
     format_var := format_var g; filename_var := filename_var g;
     download_path := download_path g; process_running := process_running g;
     output_queue := output_queue g; output := output g;
     download_btn := download_btn g; progress := progress g;
     format_entry := format_entry g |}.

Definition set_url_var v g :=
  {| yt_dlp_path := yt_dlp_path g; download_type := download_type g; url_var := v;
     format_var := format_var g; filename_var := filename_var g;
     download_path := download_path g; process_running := process_running g;
     output_queue := output_queue g; output := output g;
     download_btn := download_btn g; progress := progress g;
     format_entry := format_entry g |}.

Definition set_format_var v g :=
  {| yt_dlp_path := yt_dlp_path g; download_type := download_type g;
     url_var := url_var g; format_var := v; filename_var := filename_var g;
     download_path := download_path g; process_running := process_running g;
     output_queue := output_queue g; output := output g;
     download_btn := download_btn g; progress := progress g;
     format_entry := format_entry g |}.

Definition set_filename_var v g :=
  {| yt_dlp_path := yt_dlp_path g; download_type := download_type g;
     url_var := url_var g; format_var := format_var g; filename_var := v;
     download_path := download_path g; process_running := process_running g;
     output_queue := output_queue g; output := output g;
     download_btn := download_btn g; progress := progress g;
     format_entry := format_entry g |}.

Definition set_download_path v g :=
  {| yt_dlp_path := yt_dlp_path g; download_type := download_type g;
     url_var := url_var g; format_var := format_var g;
     filename_var := filename_var g; download_path := v;
     process_running := process_running g;
     output_queue := output_queue g; output := output g;
     download_btn := download_btn g; progress := progress g;
     format_entry := format_entry g |}.

Definition set_process_running v g :=
  {| yt_dlp_path := yt_dlp_path g; download_type := download_type g;
     url_var := url_var g; format_var := format_var g;
     filename_var := filename_var g; download_path := download_path g;
     process_running := v;
     output_queue := output_queue g; output := output g;
     download_btn := download_btn g; progress := progress g;
     format_entry := format_entry g |}.

Definition set_output_queue v g :=
  {| yt_dlp_path := yt_dlp_path g; download_type := download_type g;
     url_var := url_var g; format_var := format_var g;
     filename_var := filename_var g; download_path := download_path g;
     process_running := process_running g;
     output_queue := v; output := output g;
     download_btn := download_btn g; progress := progress g;
     format_entry := format_entry g |}.

Definition set_output v g :=
  {| yt_dlp_path := yt_dlp_path g; download_type := download_type g;
     url_var := url_var g; format_var := format_var g;
     filename_var := filename_var g; download_path := download_path g;
     process_running := process_running g;
     output_queue := output_queue g; output := v;
     download_btn := download_btn g; progress := progress g;
     format_entry := format_entry g |}.

Definition set_download_btn v g :=
  {| yt_dlp_path := yt_dlp_path g; download_type := download_type g;
     url_var := url_var g; format_var := format_var g;
     filename_var := filename_var g; download_path := download_path g;
     process_running := process_running g;
     output_queue := output_queue g; output := output g;
     download_btn := v; progress := progress g;
     format_entry := format_entry g |}.

Definition set_progress v g :=
  {| yt_dlp_path := yt_dlp_path g; download_type := download_type g;
     url_var := url_var g; format_var := format_var g;
     filename_var := filename_var g; download_path := download_path g;
     process_running := process_running g;
     output_queue := output_queue g; output := output g;
     download_btn := download_btn g; progress := v;
     format_entry := format_entry g |}.

Definition set_format_entry v g :=
  {| yt_dlp_path := yt_dlp_path g; download_type := download_type g;
     url_var := url_var g; format_var := format_var g;
     filename_var := filename_var g; download_path := download_path g;
     process_running := process_running g;
     output_queue := output_queue g; output := output g;
     download_btn := download_btn g; progress := progress g;
     format_entry := v |}.

(** [append_output(text)] *)
Definition append_output (text : string) (g : Gui) : Gui :=
  set_output (output g ++ [text]) g.

(** [validate()] *)
Definition validate (g : Gui) : Gui :=
  if process_running g then set_download_btn false g
  else
    let valid := Str.truthy (download_type g) && Str.truthy (Str.strip (url_var g)) in
    let g := set_download_btn valid g in
    if download_type g =? "video" then set_format_entry true g
    else set_format_entry false g.

(** Effects of the worker thread on the shared state. *)
Inductive Action : Type :=
| SetProcessRunning (b : bool)      (* process_running.set(b) *)
| ProgressStart                     (* progress.start() *)
| Popen (command : list string)     (* subprocess.Popen(command, ...) returned *)
| QueuePut (line : string)          (* output_queue.put(line) *)
| ProcessWait                       (* process.wait() returned *)
| ProgressStop                      (* progress.stop() *)
| Validate.                         (* validate() *)

(** [subprocess.Popen(command, stdout=PIPE, stderr=STDOUT, text=True)] *)
Definition popen (command : list string) (p : Process) : Thread.M Process :=
  if spawn_ok p then Thread.tell (Popen command) ;;; Thread.ret p
  else Thread.raise OSError.

(** [run_process(command)], run against the process [p]. *)
Definition run_process (command : list string) (p : Process) : Thread.M unit :=
  Thread.try_finally
    (Thread.tell (SetProcessRunning true) ;;;
     Thread.tell ProgressStart ;;;
     process <- popen command p ;;
     let collected := "" in
     _ <- Thread.for_lines (stdout_lines process) (read_fails process)
            (fun collected line =>
               Thread.tell (QueuePut line) ;;;
               Thread.ret (collected +++ line))
            collected ;;
     Thread.tell ProcessWait)
    (Thread.tell (SetProcessRunning false) ;;;
     Thread.tell ProgressStop ;;;
     Thread.tell Validate).

(** [start_download()]: the new widget state and the command handed to
    the thread it starts.  The function returns [None] in Python. *)
Definition start_download (g : Gui) : Gui * list string :=
  let g := append_output (nl +++ "--- Download started ---" +++ nl) g in
  let template := output_template (download_path g) (filename_var g) in
  if download_type g =? "audio" then
    (g, audio_cmd (yt_dlp_path g) template (url_var g))
  else if negb (Str.truthy (Str.strip (format_var g))) then
    let g := append_output (nl +++ "Listing formats..." +++ nl) g in
    (g, probe_cmd (yt_dlp_path g) (url_var g))
  else
    (g, video_cmd (yt_dlp_path g) (format_var g) template (url_var g)).

(** [process_queue()]: the loop
    [while not output_queue.empty(): append_output(output_queue.get())];
    [fuel] bounds the iterations and is taken as the queue's length. *)
Fixpoint process_queue_loop (fuel : nat) (g : Gui) : Gui :=
  match fuel with
  | O => g
  | S fuel' =>
      if Queue.empty (output_queue g) then g
      else match Queue.get (output_queue g) with
           | None => g
           | Some (line, q) =>
               process_queue_loop fuel' (append_output line (set_output_queue q g))
           end
  end.

Definition process_queue (g : Gui) : Gui :=
  process_queue_loop (List.length (Queue.items (output_queue g))) g.

(** The effect of one worker action on the shared state; [None] when
    the call would block. *)
Definition exec_action (a : Action) (g : Gui) : option Gui :=
  match a with
  | SetProcessRunning b => Some (set_process_running b g)
  | ProgressStart => Some (set_progress true g)
  | Popen _ => Some g
  | QueuePut line =>
      match Queue.put line (output_queue g) with
      | Some q => Some (set_output_queue q g)
      | None => None
      end
  | ProcessWait => Some g
  | ProgressStop => Some (set_progress false g)
  | Validate => Some (validate g)
  end.

(** A worker's effects applied in order, with nothing in between. *)
Fixpoint exec_all (tr : list Action) (g : Gui) : option Gui :=
  match tr with
  | [] => Some g
  | a :: rest =>
      match exec_action a g with
      | None => None
      | Some g' => exec_all rest g'
      end
  end.

(** The widget state right after the module has been executed up to
    [root.mainloop()]: the button is created enabled and [validate] has
    not run yet. *)
Definition initial (exe folder : string) : Gui :=
  {| yt_dlp_path := exe; download_type := "audio"; url_var := "";
     format_var := ""; filename_var := ""; download_path := folder;
     process_running := false; output_queue := Queue.new; output := [];
     download_btn := true; progress := false; format_entry := false |}.

(** The application with its worker threads. *)
Record Config : Type := {
  gui : Gui;
  workers : list (Worker Action)
}.

Definition start (exe folder : string) : Config :=
  {| gui := initial exe folder; workers := [] |}.

(** What can happen next: a user action on the main thread, a timer
    tick, or one step of a worker. *)
Inductive Event : Type :=
| TypeUrl (s : string)              (* url_var written: the trace calls validate *)
| SelectType (s : string)           (* download_type written: the trace calls validate *)
| TypeFormat (s : string)
| TypeFilename (s : string)
| ChooseFolder (s : string)
| ClickDownload (p : Process)       (* p: how the spawned process will behave *)
| TimerTick                         (* root.after(100, process_queue) fires *)
| WorkerStep (i : nat).

Definition on_gui (f : Gui -> Gui) (c : Config) : Config :=
  {| gui := f (gui c); workers := workers c |}.

(** A click reaches [start_download] only while the button is enabled. *)
Definition click_download (p : Process) (c : Config) : Config :=
  if download_btn (gui c) then
    let '(g, cmd) := start_download (gui c) in
    {| gui := g; workers := workers c ++ [spawn_thread (run_process cmd p)] |}
  else c.

Definition worker_step (i : nat) (c : Config) : option Config :=
  match nth_error (workers c) i with
  | None => None
  | Some w =>
      match advance w with
      | None => None
      | Some (a, w') =>
          match exec_action a (gui c) with
          | None => None
          | Some g => Some {| gui := g; workers := replace_nth i w' (workers c) |}
          end
      end
  end.

Definition step (e : Event) (c : Config) : option Config :=
  match e with
  | TypeUrl s => Some (on_gui (fun g => validate (set_url_var s g)) c)
  | SelectType s => Some (on_gui (fun g => validate (set_download_type s g)) c)
  | TypeFormat s => Some (on_gui (set_format_var s) c)
  | TypeFilename s => Some (on_gui (set_filename_var s) c)
  | ChooseFolder s =>
      Some (on_gui (fun g => if Str.truthy s then set_download_path s g else g) c)
  | ClickDownload p => Some (click_download p c)
  | TimerTick => Some (on_gui process_queue c)
  | WorkerStep i => worker_step i c
  end.

Fixpoint run (es : list Event) (c : Config) : option Config :=
  match es with
  | [] => Some c
  | e :: rest =>
      match step e c with
      | None => None
      | Some c' => run rest c'
      end
  end.

Definition reachable (exe folder : string) (c : Config) : Prop :=
  exists es, run es (start exe folder) = Some c.

Definition is_Popen (a : Action) : bool :=
  match a with Popen _ => true | _ => false end.

Definition is_ProcessWait (a : Action) : bool :=
  match a with ProcessWait => true | _ => false end.

(** A worker whose thread has not finished. *)
Definition job_running (w : Worker Action) : bool :=
  match todo w with [] => false | _ :: _ => true end.

(** A worker that has spawned its process and not yet waited for it. *)
Definition process_live (w : Worker Action) : bool :=
  existsb is_Popen (done w) && negb (existsb is_ProcessWait (done w))
  && job_running w.

Definition running_jobs (c : Config) : nat :=
  List.length (filter job_running (workers c)).

Definition live_processes (c : Config) : nat :=
  List.length (filter process_live (workers c)).

End Tk.

(* ================================================================== *)
(** ** The PySide6 front-end ([ytdlp_qt_gui.py]) *)
(* ================================================================== *)

Module Qt.

(** The attributes of [YtDlpGUI] and the widget properties the
    orchestration reads or writes. *)
Record Gui : Type := {
  yt_dlp_path : string;
  download_folder : string;
  process_running : bool;
  output_queue : Queue.t;           (* created in __init__, never written *)
  radio_audio : bool;               (* checked; radio_video is its negation *)
  format_entry : string;
  format_entry_visible : bool;
  url_entry : string;
  filename_entry : string;
  progress : bool;                  (* the bar is visible *)
  output : list string;             (* texts inserted at the end of the QTextEdit *)
  download_btn : bool               (* enabled *)
}.

Definition set_download_folder v g :=
  {| yt_dlp_path := yt_dlp_path g; download_folder := v;
     process_running := process_running g; output_queue := output_queue g;
     radio_audio := radio_audio g; format_entry := format_entry g;
     format_entry_visible := format_entry_visible g;
     url_entry := url_entry g; filename_entry := filename_entry g;
     progress := progress g; output := output g;
     download_btn := download_btn g |}.

Definition set_process_running v g :=
  {| yt_dlp_path := yt_dlp_path g; download_folder := download_folder g;
     process_running := v; output_queue := output_queue g;
     radio_audio := radio_audio g; format_entry := format_entry g;
     format_entry_visible := format_entry_visible g;
     url_entry := url_entry g; filename_entry := filename_entry g;
     progress := progress g; output := output g;
     download_btn := download_btn g |}.

Definition set_output_queue v g :=
  {| yt_dlp_path := yt_dlp_path g; download_folder := download_folder g;
     process_running := process_running g; output_queue := v;
     radio_audio := radio_audio g; format_entry := format_entry g;
     format_entry_visible := format_entry_visible g;
     url_entry := url_entry g; filename_entry := filename_entry g;
     progress := progress g; output := output g;
     download_btn := download_btn g |}.

Definition set_radio_audio v g :=
  {| yt_dlp_path := yt_dlp_path g; download_folder := download_folder g;
     process_running := process_running g; output_queue := output_queue g;
     radio_audio := v; format_entry := format_entry g;
     format_entry_visible := format_entry_visible g;
     url_entry := url_entry g; filename_entry := filename_entry g;
     progress := progress g; output := output g;
     download_btn := download_btn g |}.

Definition set_format_entry v g :=
  {| yt_dlp_path := yt_dlp_path g; download_folder := download_folder g;
     process_running := process_running g; output_queue := output_queue g;
     radio_audio := radio_audio g; format_entry := v;
     format_entry_visible := format_entry_visible g;
     url_entry := url_entry g; filename_entry := filename_entry g;
     progress := progress g; output := output g;
     download_btn := download_btn g |}.

Definition set_format_entry_visible v g :=
  {| yt_dlp_path := yt_dlp_path g; download_folder := download_folder g;
     process_running := process_running g; output_queue := output_queue g;
     radio_audio := radio_audio g; format_entry := format_entry g;
     format_entry_visible := v; url_entry := url_entry g;
     filename_entry := filename_entry g; progress := progress g;
     output := output g; download_btn := download_btn g |}.

Definition set_url_entry v g :=
  {| yt_dlp_path := yt_dlp_path g; download_folder := download_folder g;
     process_running := process_running g; output_queue := output_queue g;
     radio_audio := radio_audio g; format_entry := format_entry g;
     format_entry_visible := format_entry_visible g; url_entry := v;
     filename_entry := filename_entry g; progress := progress g;
     output := output g; download_btn := download_btn g |}.

Definition set_filename_entry v g :=
  {| yt_dlp_path := yt_dlp_path g; download_folder := download_folder g;
     process_running := process_running g; output_queue := output_queue g;
     radio_audio := radio_audio g; format_entry := format_entry g;
     format_entry_visible := format_entry_visible g;
     url_entry := url_entry g; filename_entry := v; progress := progress g;
     output := output g; download_btn := download_btn g |}.

Definition set_progress v g :=
  {| yt_dlp_path := yt_dlp_path g; download_folder := download_folder g;
     process_running := process_running g; output_queue := output_queue g;
     radio_audio := radio_audio g; format_entry := format_entry g;
     format_entry_visible := format_entry_visible g;
     url_entry := url_entry g; filename_entry := filename_entry g;
     progress := v; output := output g; download_btn := download_btn g |}.

Definition set_output v g :=
  {| yt_dlp_path := yt_dlp_path g; download_folder := download_folder g;
     process_running := process_running g; output_queue := output_queue g;
     radio_audio := radio_audio g; format_entry := format_entry g;
     format_entry_visible := format_entry_visible g;
     url_entry := url_entry g; filename_entry := filename_entry g;
     progress := progress g; output := v; download_btn := download_btn g |}.

Definition set_download_btn v g :=
  {| yt_dlp_path := yt_dlp_path g; download_folder := download_folder g;
     process_running := process_running g; output_queue := output_queue g;
     radio_audio := radio_audio g; format_entry := format_entry g;
     format_entry_visible := format_entry_visible g;
     url_entry := url_entry g; filename_entry := filename_entry g;
     progress := progress g; output := output g; download_btn := v |}.

(** [append_output(text)] *)
Definition append_output (text : string) (g : Gui) : Gui :=
  set_output (output g ++ [text]) g.

(** [validate()] *)
Definition validate (g : Gui) : Gui :=
  if process_running g then set_download_btn false g
  else
    let has_url := Str.truthy (Str.strip (url_entry g)) in
    set_download_btn has_url g.

(** [on_type_changed()] *)
Definition on_type_changed (g : Gui) : Gui :=
  let is_video := negb (radio_audio g) in
  validate (set_format_entry_visible is_video g).

(** [on_process_finished()], the slot of [process_finished] *)
Definition on_process_finished (g : Gui) : Gui :=
  validate (set_progress false (set_process_running false g)).

(** The signals of [SignalHandler]. *)
Inductive Signal : Type :=
| OutputSignal (text : string)      (* output_signal *)
| ProcessFinished.                  (* process_finished *)

(** Effects of the worker thread. *)
Inductive Action : Type :=
| SetProcessRunning (b : bool)      (* self.process_running = b *)
| Popen (command : list string)     (* subprocess.Popen(command, ...) returned *)
| Emit (s : Signal)                 (* signal_handler.<signal>.emit(...) *)
| ProcessWait.                      (* process.wait() returned *)

Definition popen (command : list string) (p : Process) : Thread.M Process :=
  if spawn_ok p then Thread.tell (Popen command) ;;; Thread.ret p
  else Thread.raise OSError.

(** [run_process(command)], run against the process [p]. *)
Definition run_process (command : list string) (p : Process) : Thread.M unit :=
  Thread.try_finally
    (Thread.tell (SetProcessRunning true) ;;;
     process <- popen command p ;;
     _ <- Thread.for_lines (stdout_lines process) (read_fails process)
            (fun (_ : unit) line => Thread.tell (Emit (OutputSignal line)))
            tt ;;
     Thread.tell ProcessWait)
    (Thread.tell (Emit ProcessFinished)).

(** [start_download()]: the new widget state and the command handed to
    the thread it starts.  The method returns [None] in Python. *)
Definition start_download (g : Gui) : Gui * list string :=
  let g := append_output (nl +++ "--- Download started ---" +++ nl) g in
  let g := set_progress true g in
  let template := output_template (download_folder g) (filename_entry g) in
  if radio_audio g then
    (g, audio_cmd (yt_dlp_path g) template (url_entry g))
  else if negb (Str.truthy (Str.strip (format_entry g))) then
    let g := append_output (nl +++ "Listing formats..." +++ nl) g in
    (g, probe_cmd (yt_dlp_path g) (url_entry g))
  else
    (g, video_cmd (yt_dlp_path g) (format_entry g) template (url_entry g)).

(** [process_queue()] *)
Fixpoint process_queue_loop (fuel : nat) (g : Gui) : Gui :=
  match fuel with
  | O => g
  | S fuel' =>
      if Queue.empty (output_queue g) then g
      else match Queue.get (output_queue g) with
           | None => g
           | Some (line, q) =>
               process_queue_loop fuel' (append_output line (set_output_queue q g))
           end
  end.

Definition process_queue (g : Gui) : Gui :=
  process_queue_loop (List.length (Queue.items (output_queue g))) g.

(** The window after [YtDlpGUI.__init__]: [validate] has run once on the
    empty URL field. *)
Definition initial (exe folder : string) : Gui :=
  validate
    {| yt_dlp_path := exe; download_folder := folder; process_running := false;
       output_queue := Queue.new; radio_audio := true; format_entry := "";
       format_entry_visible := false; url_entry := ""; filename_entry := "";
       progress := false; output := []; download_btn := true |}.

(** The application: the window, the signals emitted by workers and not
    yet delivered to their slots (queued connections, in emission
    order), and the worker threads. *)
Record Config : Type := {
  gui : Gui;
  posted : list Signal;
  workers : list (Worker Action)
}.

Definition start (exe folder : string) : Config :=
  {| gui := initial exe folder; posted := []; workers := [] |}.

(** The slot connected to each signal in [__init__]. *)
Definition slot (s : Signal) (g : Gui) : Gui :=
  match s with
  | OutputSignal text => append_output text g
  | ProcessFinished => on_process_finished g
  end.

(** The effect of one worker action on the shared state. *)
Definition exec_action (a : Action) (st : Gui * list Signal) : Gui * list Signal :=
  let '(g, q) := st in
  match a with
  | SetProcessRunning b => (set_process_running b g, q)
  | Popen _ => (g, q)
  | Emit s => (g, q ++ [s])
  | ProcessWait => (g, q)
  end.

(** A worker's effects applied in order, with nothing in between. *)
Definition exec_all (tr : list Action) (st : Gui * list Signal) : Gui * list Signal :=
  fold_left (fun st a => exec_action a st) tr st.

(** The event loop delivering a batch of signals, oldest first. *)
Definition deliver_all (q : list Signal) (g : Gui) : Gui :=
  fold_left (fun g s => slot s g) q g.

Inductive Event : Type :=
| TypeUrl (s : string)              (* url_entry.textChanged calls validate *)
| SelectAudio (b : bool)            (* a radio button is clicked *)
| TypeFormat (s : string)
| TypeFilename (s : string)
| ChooseFolder (s : string)
| ClickDownload (p : Process)       (* p: how the spawned process will behave *)
| TimerTick                         (* queue_timer fires *)
| Dispatch                          (* the event loop delivers the oldest signal *)
| WorkerStep (i : nat).

Definition on_gui (f : Gui -> Gui) (c : Config) : Config :=
  {| gui := f (gui c); posted := posted c; workers := workers c |}.

(** Both radio buttons emit [toggled] when the selection changes, and
    each calls [on_type_changed]. *)
Definition select_audio (b : bool) (g : Gui) : Gui :=
  if Bool.eqb (radio_audio g) b then g
  else on_type_changed (on_type_changed (set_radio_audio b g)).

(** A click reaches [start_download] only while the button is enabled. *)
Definition click_download (p : Process) (c : Config) : Config :=
  if download_btn (gui c) then
    let '(g, cmd) := start_download (gui c) in
    {| gui := g; posted := posted c;
       workers := workers c ++ [spawn_thread (run_process cmd p)] |}
  else c.

Definition dispatch (c : Config) : option Config :=
  match posted c with
  | [] => None
  | s :: rest =>
      Some {| gui := slot s (gui c); posted := rest; workers := workers c |}
  end.

Definition worker_step (i : nat) (c : Config) : option Config :=
  match nth_error (workers c) i with
  | None => None
  | Some w =>
      match advance w with
      | None => None
      | Some (a, w') =>
          let '(g, q) := exec_action a (gui c, posted c) in
          Some {| gui := g; posted := q; workers := replace_nth i w' (workers c) |}
      end
  end.

Definition step (e : Event) (c : Config) : option Config :=
  match e with
  | TypeUrl s => Some (on_gui (fun g => validate (set_url_entry s g)) c)
  | SelectAudio b => Some (on_gui (select_audio b) c)
  | TypeFormat s => Some (on_gui (set_format_entry s) c)
  | TypeFilename s => Some (on_gui (set_filename_entry s) c)
  | ChooseFolder s =>
      Some (on_gui (fun g => if Str.truthy s then set_download_folder s g else g) c)
  | ClickDownload p => Some (click_download p c)
  | TimerTick => Some (on_gui process_queue c)
  | Dispatch => dispatch c
  | WorkerStep i => worker_step i c
  end.

Fixpoint run (es : list Event) (c : Config) : option Config :=
  match es with
  | [] => Some c
  | e :: rest =>
      match step e c with
      | None => None
      | Some c' => run rest c'
      end
  end.

Definition reachable (exe folder : string) (c : Config) : Prop :=
  exists es, run es (start exe folder) = Some c.

Definition is_Popen (a : Action) : bool :=
  match a with Popen _ => true | _ => false end.

Definition is_ProcessWait (a : Action) : bool :=
  match a with ProcessWait => true | _ => false end.

Definition job_running (w : Worker Action) : bool :=
  match todo w with [] => false | _ :: _ => true end.

Definition process_live (w : Worker Action) : bool :=
  existsb is_Popen (done w) && negb (existsb is_ProcessWait (done w))
  && job_running w.

Definition running_jobs (c : Config) : nat :=
  List.length (filter job_running (workers c)).

Definition live_processes (c : Config) : nat :=
  List.length (filter process_live (workers c)).

End Qt.

(* ================================================================== *)
(** ** Start-up: the update probe at module level *)
(* ================================================================== *)

Module Startup.

(** The machine the script starts on: the directory of the script
    ([os.path.dirname(__file__)]), which paths hold a program that can be
    started, and the folder found in the settings. *)
Record Host : Type := {
  script_dir : string;
  has_program : string -> bool;
  settings_folder : string
}.

(** [yt_dlp_path = os.path.join(os.path.dirname(__file__), "yt-dlp.exe")] *)
Definition yt_dlp_path (h : Host) : string :=
  OsPath.join (script_dir h) "yt-dlp.exe".

(** How [subprocess.run(args, ...)] ends: it returns, or the program
    does not exist and [FileNotFoundError] is raised. *)
Inductive RunResult : Type :=
| Completed
| FileNotFoundError.

Definition subprocess_run (h : Host) (args : list string) : RunResult :=
  match args with
  | exe :: _ => if has_program h exe then Completed else FileNotFoundError
  | [] => FileNotFoundError
  end.

(** What the user and the system see of a start-up. *)
Inductive Effect : Type :=
| Ran (args : list string)              (* subprocess.run was called *)
| AppCreated                            (* QApplication(sys.argv) *)
| ErrorDialog (title text : string)     (* showerror / QMessageBox.critical *)
| WindowShown.                          (* the main window is created and shown *)

(** How a start-up ends: the interpreter exits with a status, or the
    event loop runs on the given application state. *)
Inductive Ending (C : Type) : Type :=
| Exit (status : Z)
| MainLoop (c : C).
Arguments Exit {C} _.
Arguments MainLoop {C} _.

Definition update_args (h : Host) : list string := [yt_dlp_path h; "--update"].

(** [ytdlp_tkinter_gui.py] executed as a script. *)
Definition tk_main (h : Host) : list Effect * Ending Tk.Config :=
  match subprocess_run h (update_args h) with
  | FileNotFoundError =>
      ([Ran (update_args h); ErrorDialog "Error" "yt-dlp was not found in PATH"],
       Exit 0)                           (* raise SystemExit *)
  | Completed =>
      ([Ran (update_args h); WindowShown],
       MainLoop (Tk.start (yt_dlp_path h) (settings_folder h)))
  end.

(** [ytdlp_qt_gui.py] executed as a script. *)
Definition qt_main (h : Host) : list Effect * Ending Qt.Config :=
  match subprocess_run h (update_args h) with
  | FileNotFoundError =>
      ([Ran (update_args h); AppCreated;
        ErrorDialog "Error" "yt-dlp was not found in PATH"],
       Exit 1)                           (* sys.exit(1) *)
  | Completed =>
      ([Ran (update_args h); AppCreated; WindowShown],
       MainLoop (Qt.start (yt_dlp_path h) (settings_folder h)))
  end.

Definition is_Ran (e : Effect) : bool :=
  match e with Ran _ => true | _ => false end.

Definition is_WindowShown (e : Effect) : bool :=
  match e with WindowShown => true | _ => false end.

Definition is_ErrorDialog (e : Effect) : bool :=
  match e with ErrorDialog _ _ => true | _ => false end.

End Startup.

(* ================================================================== *)
(** ** The output relay as a stream of events *)
(* ================================================================== *)

Inductive OutputEvent : Type :=
| Line (text : string)
| Finished.

(** The events a Tk worker puts on [output_queue]. *)
Definition tk_relay_events (tr : list Tk.Action) : list OutputEvent :=
  flat_map (fun a => match a with Tk.QueuePut l => [Line l] | _ => [] end) tr.

(** The events a Qt worker emits through [signal_handler]. *)
Definition qt_relay_events (tr : list Qt.Action) : list OutputEvent :=
  flat_map (fun a => match a with
                     | Qt.Emit (Qt.OutputSignal l) => [Line l]
                     | Qt.Emit Qt.ProcessFinished => [Finished]
                     | _ => []
                     end) tr.

(** Producer and consumer of the Tk relay, interleaved at will: a worker's
    [output_queue.put(line)] or a run of [process_queue]. *)
Inductive RelayOp : Type :=
| Push (line : string)
| Drain.

Definition relay_step (op : RelayOp) (g : Tk.Gui) : option Tk.Gui :=
  match op with
  | Push line => Tk.exec_action (Tk.QueuePut line) g
  | Drain => Some (Tk.process_queue g)
  end.

Fixpoint relay_run (ops : list RelayOp) (g : Tk.Gui) : option Tk.Gui :=
  match ops with
  | [] => Some g
  | op :: rest =>
      match relay_step op g with
      | None => None
      | Some g' => relay_run rest g'
      end
  end.

Definition pushed (ops : list RelayOp) : list string :=
  flat_map (fun op => match op with Push l => [l] | Drain => [] end) ops.

(** A process as the worker sees it, with another exit status. *)
Definition with_exit_status (z : Z) (p : Process) : Process :=
  {| spawn_ok := spawn_ok p; stdout_lines := stdout_lines p;
     read_fails := read_fails p; exit_status := z |}.

(** A process that starts, prints [lines] and exits with status 0. *)
Definition ok_process (lines : list string) : Process :=
  {| spawn_ok := true; stdout_lines := lines; read_fails := false;
     exit_status := 0 |}.

(** The Tk window with its form filled in by the user. *)
Definition tk_form (exe mode url fmt filename folder : string) : Tk.Gui :=
  Tk.set_filename_var filename
    (Tk.set_format_var fmt
       (Tk.set_url_var url
          (Tk.set_download_type mode (Tk.initial exe folder)))).

(** The Qt window with its form filled in by the user. *)
Definition qt_form (exe : string) (audio : bool) (url fmt filename folder : string)
  : Qt.Gui :=
  Qt.set_filename_entry filename
    (Qt.set_format_entry fmt
       (Qt.set_url_entry url
          (Qt.set_radio_audio audio (Qt.initial exe folder)))).

(** A process whose output stream breaks after one line and which exits
    with a non-zero status. *)
Definition broken_pipe : Process :=
  {| spawn_ok := true; stdout_lines := ["a"]; read_fails := true;
     exit_status := 1 |}.

(** The reading of the specification under which a failed read is still
    followed by the wait: the worker's trace ends with the wait and the
    finalisation, in that order. *)
Definition tk_waits_after_read_failure : Prop :=
  forall cmd p, spawn_ok p = true -> read_fails p = true ->
    exists pre,
      Thread.trace (Tk.run_process cmd p) =
      pre ++ [Tk.ProcessWait; Tk.SetProcessRunning false; Tk.ProgressStop;
              Tk.Validate].

Definition qt_waits_after_read_failure : Prop :=
  forall cmd p, spawn_ok p = true -> read_fails p = true ->
    exists pre,
      Thread.trace (Qt.run_process cmd p) =
      pre ++ [Qt.ProcessWait; Qt.Emit Qt.ProcessFinished].

(** The reading of the specification under which every job's stream on
    the Tk relay ends with a finished event. *)
Definition tk_stream_ends_with_finished : Prop :=
  forall cmd p, exists lines,
    tk_relay_events (Thread.trace (Tk.run_process cmd p)) = lines ++ [Finished].

(** One Tk job run to its end before the timer fires. *)
Definition tk_late_drain : list Tk.Event :=
  [Tk.TypeUrl "https://x/1"; Tk.ClickDownload (ok_process ["a"]);
   Tk.WorkerStep 0; Tk.WorkerStep 0; Tk.WorkerStep 0; Tk.WorkerStep 0;
   Tk.WorkerStep 0; Tk.WorkerStep 0; Tk.WorkerStep 0; Tk.WorkerStep 0].

(** A machine on which no program can be started. *)
Definition bare_host : Startup.Host :=
  {| Startup.script_dir := "/opt/app";
     Startup.has_program := fun _ => false;
     Startup.settings_folder := "/tmp" |}.

(** A second click made while the first job's process is running. *)
Definition tk_second_start : list Tk.Event :=
  [Tk.TypeUrl "https://x/1"; Tk.ClickDownload (ok_process ["a"]);
   Tk.WorkerStep 0; Tk.WorkerStep 0; Tk.WorkerStep 0].

Definition qt_second_start : list Qt.Event :=
  [Qt.TypeUrl "https://x/1"; Qt.ClickDownload (ok_process ["a"]);
   Qt.WorkerStep 0; Qt.WorkerStep 0].

(** Two clicks made before either worker has run, then the two workers
    taking turns up to their spawn. *)
Definition tk_racing_starts : list Tk.Event :=
  [Tk.TypeUrl "https://x/1";
   Tk.ClickDownload (ok_process ["a"]); Tk.ClickDownload (ok_process ["b"]);
   Tk.WorkerStep 0; Tk.WorkerStep 1; Tk.WorkerStep 0; Tk.WorkerStep 1;
   Tk.WorkerStep 0; Tk.WorkerStep 1].

Definition qt_racing_starts : list Qt.Event :=
  [Qt.TypeUrl "https://x/1";
   Qt.ClickDownload (ok_process ["a"]); Qt.ClickDownload (ok_process ["b"]);
   Qt.WorkerStep 0; Qt.WorkerStep 1; Qt.WorkerStep 0; Qt.WorkerStep 1].

(** The reading of the specification under which a start made while the
    flag is set is rejected: it starts no worker. *)
Definition tk_start_rejected_while_running : Prop :=
  forall exe folder c p,
    Tk.reachable exe folder c ->
    Tk.process_running (Tk.gui c) = true ->
    Tk.workers (Tk.click_download p c) = Tk.workers c.

Definition qt_start_rejected_while_running : Prop :=
  forall exe folder c p,
    Qt.reachable exe folder c ->
    Qt.process_running (Qt.gui c) = true ->
    Qt.workers (Qt.click_download p c) = Qt.workers c.

(** The reading of the specification under which no interleaving of
    starts leaves two processes alive. *)
Definition tk_single_flight : Prop :=
  forall exe folder c, Tk.reachable exe folder c -> Tk.live_processes c <= 1.

Definition qt_single_flight : Prop :=
  forall exe folder c, Qt.reachable exe folder c -> Qt.live_processes c <= 1.

(** Every worker is a run of [run_process], partly executed. *)
Definition tk_worker_ok (w : Worker Tk.Action) : Prop :=
  exists cmd p, done w ++ todo w = Thread.trace (Tk.run_process cmd p).

Definition qt_worker_ok (w : Worker Qt.Action) : Prop :=
  exists cmd p, done w ++ todo w = Thread.trace (Qt.run_process cmd p).

(** Where a sequence of events leads from the initial window. *)
Definition tk_after (es : list Tk.Event) : Tk.Config :=
  match Tk.run es (Tk.start "yt-dlp.exe" "/tmp") with
  | Some c => c
  | None => Tk.start "yt-dlp.exe" "/tmp"
  end.

Definition qt_after (es : list Qt.Event) : Qt.Config :=
  match Qt.run es (Qt.start "yt-dlp.exe" "/tmp") with
  | Some c => c
  | None => Qt.start "yt-dlp.exe" "/tmp"
  end.

(** One Qt job run to its end, its signals not yet delivered. *)
Definition qt_job_done : list Qt.Event :=
  [Qt.TypeUrl "https://x/1"; Qt.ClickDownload (ok_process []);
   Qt.WorkerStep 0; Qt.WorkerStep 0; Qt.WorkerStep 0; Qt.WorkerStep 0].

(* ================================================================== *)
(** ** Predicates on the state of the running application *)
(* ================================================================== *)

(** The URL argument of a command: its last element. *)
Definition url_of (cmd : list string) : string := List.last cmd "".


Definition qt_button_sound (g : Qt.Gui) : bool :=
  implb (Qt.download_btn g) (Str.truthy (Str.strip (Qt.url_entry g))).

(** A worker running [run_process] on a command whose URL is not blank. *)
Definition qt_worker_has_url (w : Worker Qt.Action) : Prop :=
  exists cmd p,
    done w ++ todo w = Thread.trace (Qt.run_process cmd p)
    /\ Str.truthy (Str.strip (url_of cmd)) = true.


(** Tests on worker actions. *)
Definition tk_sets_flag (b : bool) (a : Tk.Action) : bool :=
  match a with Tk.SetProcessRunning b' => Bool.eqb b b' | _ => false end.

Definition tk_is_ProgressStart (a : Tk.Action) : bool :=
  match a with Tk.ProgressStart => true | _ => false end.

Definition tk_is_ProgressStop (a : Tk.Action) : bool :=
  match a with Tk.ProgressStop => true | _ => false end.

Definition tk_is_QueuePut (a : Tk.Action) : bool :=
  match a with Tk.QueuePut _ => true | _ => false end.

Definition qt_sets_flag (b : bool) (a : Qt.Action) : bool :=
  match a with Qt.SetProcessRunning b' => Bool.eqb b b' | _ => false end.

Definition qt_emits_finished (a : Qt.Action) : bool :=
  match a with Qt.Emit Qt.ProcessFinished => true | _ => false end.

Definition qt_emits_output (a : Qt.Action) : bool :=
  match a with Qt.Emit (Qt.OutputSignal _) => true | _ => false end.

Definition qt_is_finished (s : Qt.Signal) : bool :=
  match s with Qt.ProcessFinished => true | Qt.OutputSignal _ => false end.

(** A Tk worker between its write of the flag and its reset of it. *)
Definition tk_in_job (w : Worker Tk.Action) : bool :=
  existsb (tk_sets_flag true) (done w) && negb (existsb (tk_sets_flag false) (done w)).

(** A Tk worker between [progress.start()] and [progress.stop()]. *)
Definition tk_animating (w : Worker Tk.Action) : bool :=
  existsb tk_is_ProgressStart (done w) && negb (existsb tk_is_ProgressStop (done w)).

(** A Qt worker that has written the flag and not yet emitted
    [process_finished]; one that has not yet emitted it. *)
Definition qt_in_job (w : Worker Qt.Action) : bool :=
  existsb (qt_sets_flag true) (done w) && negb (existsb qt_emits_finished (done w)).

Definition qt_unfinished (w : Worker Qt.Action) : bool :=
  negb (existsb qt_emits_finished (done w)).


Definition tk_is_WorkerStep (e : Tk.Event) : bool :=
  match e with Tk.WorkerStep _ => true | _ => false end.



(** The notices [start_download] writes to the output. *)
Definition started_notice : string := nl +++ "--- Download started ---" +++ nl.
Definition listing_notice : string := nl +++ "Listing formats..." +++ nl.

(** The mode of a Tk form as the Qt form has it. *)
Definition tk_is_audio (g : Tk.Gui) : bool := (Tk.download_type g =? "audio")%string.

(** A Tk form and a Qt form filled in alike. *)
Definition same_form (tk : Tk.Gui) (qt : Qt.Gui) : Prop :=
  Tk.yt_dlp_path tk = Qt.yt_dlp_path qt
  /\ tk_is_audio tk = Qt.radio_audio qt
  /\ Tk.url_var tk = Qt.url_entry qt
  /\ Tk.format_var tk = Qt.format_entry qt
  /\ Tk.filename_var tk = Qt.filename_entry qt
  /\ Tk.download_path tk = Qt.download_folder qt.


(** What holds of the Qt window in every state the application can
    reach: the button is sound, the queue of [__init__] is still the
    empty queue it was created as, and the format field is visible
    exactly in video mode. *)
Definition qt_window_ok (g : Qt.Gui) : Prop :=
  qt_button_sound g = true
  /\ Qt.output_queue g = Queue.new
  /\ Qt.format_entry_visible g = negb (Qt.radio_audio g).


(** What the flag and the progress bar of the Tk window say about the
    workers: when the flag is set some worker is between its write and
    its reset of it, and when the bar is animating some worker is between
    its start and its stop of it. *)
Definition tk_flags_ok (c : Tk.Config) : Prop :=
  Forall tk_worker_ok (Tk.workers c)
  /\ (Tk.process_running (Tk.gui c) = true ->
      Exists (fun w => tk_in_job w = true) (Tk.workers c))
  /\ (Tk.progress (Tk.gui c) = true ->
      Exists (fun w => tk_animating w = true) (Tk.workers c)).


(** What the flag and the progress bar of the Qt window say about the
    workers and the signals waiting for delivery. *)
Definition qt_flags_ok (c : Qt.Config) : Prop :=
  Forall qt_worker_ok (Qt.workers c)
  /\ (Qt.process_running (Qt.gui c) = true ->
      Exists (fun w => qt_in_job w = true) (Qt.workers c)
      \/ In Qt.ProcessFinished (Qt.posted c))
  /\ (Qt.progress (Qt.gui c) = true ->
      Exists (fun w => qt_unfinished w = true) (Qt.workers c)
      \/ In Qt.ProcessFinished (Qt.posted c)).




(* ================================================================== *)
(** ** Settings and themes *)
(* ================================================================== *)

Module Settings.























End Settings.






(* ================================================================== *)
(** ** Facts about the string helpers *)
(* ================================================================== *)

Lemma append_assoc (a b c : string) : (a +++ b) +++ c = a +++ (b +++ c).
Proof.
  induction a as [|x a IH]; simpl; [reflexivity | now rewrite IH].
Qed.

Lemma endswith_refl (s : string) : Str.endswith s s = true.
Proof.
  destruct s; [reflexivity|].
  cbn [Str.endswith]. now rewrite String.eqb_refl.
Qed.

Lemma endswith_append (p suf : string) : Str.endswith (p +++ suf) suf = true.
Proof.
  induction p as [|c p IH].
  - apply endswith_refl.
  - cbn [String.append Str.endswith]. rewrite IH. apply orb_true_r.
Qed.

Lemma endswith_spec (s suf : string) :
  Str.endswith s suf = true <-> exists p, s = p +++ suf.
Proof.
  split.
  - induction s as [|c s IH]; cbn [Str.endswith]; intro H.
    + apply orb_true_iff in H. destruct H as [H|H]; [|discriminate].
      apply String.eqb_eq in H. exists "". now subst.
    + apply orb_true_iff in H. destruct H as [H|H].
      * apply String.eqb_eq in H. exists "". now subst.
      * destruct (IH H) as [p Hp]. exists (String c p). simpl. now rewrite Hp.
  - intros [p ->]. apply endswith_append.
Qed.

Lemma join_endswith (a b : string) : Str.endswith (OsPath.join a b) b = true.
Proof.
  unfold OsPath.join.
  destruct (Str.startswith b OsPath.sep); [apply endswith_refl|].
  destruct (negb (Str.truthy a) || Str.endswith a OsPath.sep).
  - apply endswith_append.
  - rewrite <- append_assoc. apply endswith_append.
Qed.

Lemma endswith_trans (s m suf : string) :
  Str.endswith s m = true -> Str.endswith m suf = true -> Str.endswith s suf = true.
Proof.
  intros H1 H2.
  apply endswith_spec in H1. destruct H1 as [p ->].
  apply endswith_spec in H2. destruct H2 as [q ->].
  rewrite <- append_assoc. apply endswith_append.
Qed.

Lemma output_template_ext (folder filename : string) :
  Str.endswith (output_template folder filename) ".%(ext)s" = true.
Proof.
  unfold output_template.
  eapply endswith_trans; [apply join_endswith | apply endswith_append].
Qed.

Lemma truthy_false_iff (s : string) : Str.truthy s = false <-> s = "".
Proof.
  destruct s; simpl; split; intro H; try reflexivity; discriminate.
Qed.

Lemma lstrip_empty_iff (s : string) :
  Str.lstrip s = "" <-> Str.all_space s = true.
Proof.
  induction s as [|c s IH]; simpl.
  - split; reflexivity.
  - destruct (Str.is_space c); simpl.
    + exact IH.
    + split; discriminate.
Qed.

Lemma rstrip_empty_iff (s : string) :
  Str.rstrip s = "" <-> Str.all_space s = true.
Proof.
  induction s as [|c s IH]; simpl.
  - split; reflexivity.
  - destruct (Str.rstrip s) eqn:E.
    + destruct (Str.is_space c); simpl.
      * split; intros _; [now apply IH | reflexivity].
      * split; discriminate.
    + split; [discriminate|].
      intro H. apply andb_true_iff in H. destruct H as [_ H].
      apply IH in H. discriminate.
Qed.

Lemma all_space_lstrip (s : string) :
  Str.all_space (Str.lstrip s) = true -> Str.all_space s = true.
Proof.
  induction s as [|c s IH]; simpl; [reflexivity|].
  destruct (Str.is_space c) eqn:E; simpl.
  - exact IH.
  - rewrite E. discriminate.
Qed.

(** An all-white-space value strips to the empty string, and only those do. *)
Lemma strip_empty_iff (s : string) :
  Str.strip s = "" <-> Str.all_space s = true.
Proof.
  unfold Str.strip. rewrite rstrip_empty_iff. split.
  - apply all_space_lstrip.
  - intro H. apply lstrip_empty_iff in H. now rewrite H.
Qed.

Lemma lstrip_first (s : string) : Str.not_space (Str.first (Str.lstrip s)) = true.
Proof.
  induction s as [|c s IH]; simpl; [reflexivity|].
  destruct (Str.is_space c) eqn:E; [exact IH|].
  simpl. now rewrite E.
Qed.

Lemma rstrip_first (s : string) :
  Str.not_space (Str.first s) = true ->
  Str.not_space (Str.first (Str.rstrip s)) = true.
Proof.
  destruct s as [|c s]; simpl; [reflexivity|].
  intro H. destruct (Str.rstrip s); simpl.
  - destruct (Str.is_space c) eqn:E; [discriminate | simpl; now rewrite E].
  - exact H.
Qed.

Lemma rstrip_last (s : string) : Str.not_space (Str.last (Str.rstrip s)) = true.
Proof.
  induction s as [|c s IH]; simpl; [reflexivity|].
  destruct (Str.rstrip s) as [|d r] eqn:E.
  - destruct (Str.is_space c) eqn:Ec; simpl; [reflexivity | now rewrite Ec].
  - simpl in *. exact IH.
Qed.

(** The stripped text has no white space at either end. *)
Lemma strip_edges (s : string) :
  Str.not_space (Str.first (Str.strip s)) = true /\
  Str.not_space (Str.last (Str.strip s)) = true.
Proof.
  unfold Str.strip. split.
  - apply rstrip_first, lstrip_first.
  - apply rstrip_last.
Qed.

Lemma lstrip_decompose (s : string) :
  exists l, s = l +++ Str.lstrip s /\ Str.all_space l = true.
Proof.
  induction s as [|c s [l [Hl Hs]]]; simpl.
  - exists "". now split.
  - destruct (Str.is_space c) eqn:E.
    + exists (String c l). simpl. rewrite E, Hs. split; [now rewrite <- Hl | reflexivity].
    + exists "". now split.
Qed.

Lemma rstrip_decompose (s : string) :
  exists r, s = Str.rstrip s +++ r /\ Str.all_space r = true.
Proof.
  induction s as [|c s [r [Hr Hs]]]; simpl.
  - exists "". now split.
  - destruct (Str.rstrip s) as [|d t] eqn:E.
    + destruct (Str.is_space c) eqn:Ec.
      * exists (String c r). simpl in *. rewrite Ec, Hs. split; [now rewrite <- Hr | reflexivity].
      * exists r. simpl in *. split; [now rewrite <- Hr | exact Hs].
    + exists r. simpl in *. split; [now rewrite <- Hr | exact Hs].
Qed.

(** [strip] removes only white space, and only from the two ends. *)
Lemma strip_decompose (s : string) :
  exists l r, s = l +++ Str.strip s +++ r /\
              Str.all_space l = true /\ Str.all_space r = true.
Proof.
  destruct (lstrip_decompose s) as [l [Hl Hsl]].
  destruct (rstrip_decompose (Str.lstrip s)) as [r [Hr Hsr]].
  exists l, r. unfold Str.strip. split; [|now split].
  now rewrite <- Hr.
Qed.

Lemma all_space_strip (s : string) :
  Str.all_space s = negb (Str.truthy (Str.strip s)).
Proof.
  destruct (Str.truthy (Str.strip s)) eqn:E; simpl.
  - destruct (Str.all_space s) eqn:A; [|reflexivity].
    apply strip_empty_iff in A. rewrite A in E. discriminate.
  - apply truthy_false_iff in E. now apply strip_empty_iff.
Qed.

(** The base name of the template: the stripped file name, or the title
    placeholder when the file name is empty or all white space. *)
Lemma output_template_base (folder filename : string) :
  output_template folder filename =
  OsPath.join folder
    ((if Str.all_space filename then "%(title)s" else Str.strip filename)
     +++ ".%(ext)s").
Proof.
  unfold output_template, Str.or_else. rewrite all_space_strip.
  now destruct (Str.truthy (Str.strip filename)).
Qed.

(* ================================================================== *)
(** ** Command selection *)
(* ================================================================== *)

(** The command [start_download] hands to its thread, by cases. *)
Lemma tk_start_download_cmd (g : Tk.Gui) :
  snd (Tk.start_download g) =
  let template := output_template (Tk.download_path g) (Tk.filename_var g) in
  if (Tk.download_type g =? "audio")%string then
    audio_cmd (Tk.yt_dlp_path g) template (Tk.url_var g)
  else if Str.all_space (Tk.format_var g) then
    probe_cmd (Tk.yt_dlp_path g) (Tk.url_var g)
  else video_cmd (Tk.yt_dlp_path g) (Tk.format_var g) template (Tk.url_var g).
Proof.
  rewrite all_space_strip. unfold Tk.start_download, Str.strip. cbn.
  destruct (Tk.download_type g =? "audio")%string; [reflexivity|].
  now destruct (Str.truthy (Str.rstrip (Str.lstrip (Tk.format_var g)))).
Qed.

Lemma qt_start_download_cmd (g : Qt.Gui) :
  snd (Qt.start_download g) =
  let template := output_template (Qt.download_folder g) (Qt.filename_entry g) in
  if Qt.radio_audio g then
    audio_cmd (Qt.yt_dlp_path g) template (Qt.url_entry g)
  else if Str.all_space (Qt.format_entry g) then
    probe_cmd (Qt.yt_dlp_path g) (Qt.url_entry g)
  else video_cmd (Qt.yt_dlp_path g) (Qt.format_entry g) template (Qt.url_entry g).
Proof.
  rewrite all_space_strip. unfold Qt.start_download, Str.strip. cbn.
  destruct (Qt.radio_audio g); [reflexivity|].
  now destruct (Str.truthy (Str.rstrip (Str.lstrip (Qt.format_entry g)))).
Qed.

(** C5. In audio mode both front-ends build
    [exe, -x, --audio-format, mp3, -o, template, url], where the template
    joins the destination directory with the stripped file name (the
    title placeholder when that is empty) followed by the extension
    placeholder; the template always ends in the extension placeholder,
    and the scenario of the specification yields the listed arguments. *)
Theorem audio_command_line (tk : Tk.Gui) (qt : Qt.Gui) :
  Tk.download_type tk = "audio" ->
  Qt.radio_audio qt = true ->
  let tk_template :=
    OsPath.join (Tk.download_path tk)
      (Str.or_else (Str.strip (Tk.filename_var tk)) "%(title)s" +++ ".%(ext)s") in
  let qt_template :=
    OsPath.join (Qt.download_folder qt)
      (Str.or_else (Str.strip (Qt.filename_entry qt)) "%(title)s" +++ ".%(ext)s") in
  snd (Tk.start_download tk) =
    [Tk.yt_dlp_path tk; "-x"; "--audio-format"; "mp3"; "-o"; tk_template;
     Tk.url_var tk]
  /\ snd (Qt.start_download qt) =
    [Qt.yt_dlp_path qt; "-x"; "--audio-format"; "mp3"; "-o"; qt_template;
     Qt.url_entry qt]
  /\ Str.endswith tk_template ".%(ext)s" = true
  /\ Str.endswith qt_template ".%(ext)s" = true
  /\ (forall exe,
        snd (Tk.start_download (Tk.set_url_var "https://x/1" (Tk.initial exe "/tmp")))
        = [exe; "-x"; "--audio-format"; "mp3"; "-o"; "/tmp/%(title)s.%(ext)s";
           "https://x/1"])
  /\ (forall exe,
        snd (Qt.start_download (Qt.set_url_entry "https://x/1" (Qt.initial exe "/tmp")))
        = [exe; "-x"; "--audio-format"; "mp3"; "-o"; "/tmp/%(title)s.%(ext)s";
           "https://x/1"]).
Proof.
  intros Htk Hqt tk_template qt_template.
  repeat split.
  - rewrite tk_start_download_cmd, Htk. reflexivity.
  - rewrite qt_start_download_cmd, Hqt. reflexivity.
  - apply (output_template_ext (Tk.download_path tk) (Tk.filename_var tk)).
  - apply (output_template_ext (Qt.download_folder qt) (Qt.filename_entry qt)).
Qed.

Lemma audio_command_line_witness :
  snd (Tk.start_download
         (Tk.set_filename_var " song " (Tk.set_url_var "https://x/1"
            (Tk.initial "yt-dlp.exe" "/music"))))
  = ["yt-dlp.exe"; "-x"; "--audio-format"; "mp3"; "-o"; "/music/song.%(ext)s";
     "https://x/1"].
Proof.
  exact (proj1 (audio_command_line
                  (Tk.set_filename_var " song " (Tk.set_url_var "https://x/1"
                     (Tk.initial "yt-dlp.exe" "/music")))
                  (Qt.initial "yt-dlp.exe" "/music") eq_refl eq_refl)).
Defined.

(** C6. In video mode with an empty or all-white-space format both
    front-ends build exactly [exe, -F, url], whatever the file name and
    the destination directory are. *)
Theorem video_probe_command_line (tk : Tk.Gui) (qt : Qt.Gui) :
  Tk.download_type tk = "video" ->
  Str.all_space (Tk.format_var tk) = true ->
  Qt.radio_audio qt = false ->
  Str.all_space (Qt.format_entry qt) = true ->
  snd (Tk.start_download tk) = [Tk.yt_dlp_path tk; "-F"; Tk.url_var tk]
  /\ snd (Qt.start_download qt) = [Qt.yt_dlp_path qt; "-F"; Qt.url_entry qt]
  /\ (forall name dir,
        snd (Tk.start_download (Tk.set_filename_var name (Tk.set_download_path dir tk)))
        = snd (Tk.start_download tk))
  /\ (forall name dir,
        snd (Qt.start_download (Qt.set_filename_entry name (Qt.set_download_folder dir qt)))
        = snd (Qt.start_download qt)).
Proof.
  intros Htk Ftk Hqt Fqt.
  repeat split; intros; rewrite ?tk_start_download_cmd, ?qt_start_download_cmd; cbn.
  - now rewrite Htk, Ftk.
  - now rewrite Hqt, Fqt.
  - now rewrite Htk, Ftk.
  - now rewrite Hqt, Fqt.
Qed.

Lemma video_probe_command_line_witness :
  snd (Tk.start_download (tk_form "yt-dlp.exe" "video" "https://x/1" "" "clip" "/d"))
  = ["yt-dlp.exe"; "-F"; "https://x/1"]
  /\ snd (Qt.start_download (qt_form "yt-dlp.exe" false "https://x/1" "  " "clip" "/d"))
  = ["yt-dlp.exe"; "-F"; "https://x/1"].
Proof.
  pose proof (video_probe_command_line
                (tk_form "yt-dlp.exe" "video" "https://x/1" "" "clip" "/d")
                (qt_form "yt-dlp.exe" false "https://x/1" "  " "clip" "/d")
                eq_refl eq_refl eq_refl eq_refl) as H.
  exact (conj (proj1 H) (proj1 (proj2 H))).
Defined.

(** C7. In video mode with a format that is not empty after stripping,
    both front-ends build
    [exe, -f, format, --merge-output-format, mp4, -o, template, url].
    The emptiness checks are made on the stripped texts: a value strips
    to the empty string exactly when it is all white space, such a file
    name yields the title placeholder, any other file name enters the
    template stripped, and the stripped text has no white space at
    either end. *)
Theorem video_download_command_line (tk : Tk.Gui) (qt : Qt.Gui) :
  Tk.download_type tk = "video" ->
  Str.strip (Tk.format_var tk) <> "" ->
  Qt.radio_audio qt = false ->
  Str.strip (Qt.format_entry qt) <> "" ->
  let base name := if Str.all_space name then "%(title)s" else Str.strip name in
  snd (Tk.start_download tk) =
    [Tk.yt_dlp_path tk; "-f"; Tk.format_var tk; "--merge-output-format"; "mp4";
     "-o";
     OsPath.join (Tk.download_path tk) (base (Tk.filename_var tk) +++ ".%(ext)s");
     Tk.url_var tk]
  /\ snd (Qt.start_download qt) =
    [Qt.yt_dlp_path qt; "-f"; Qt.format_entry qt; "--merge-output-format"; "mp4";
     "-o";
     OsPath.join (Qt.download_folder qt) (base (Qt.filename_entry qt) +++ ".%(ext)s");
     Qt.url_entry qt]
  /\ (forall s, Str.strip s = "" <-> Str.all_space s = true)
  /\ (forall s, Str.not_space (Str.first (Str.strip s)) = true
                /\ Str.not_space (Str.last (Str.strip s)) = true)
  /\ (forall s, exists l r, s = l +++ Str.strip s +++ r
                            /\ Str.all_space l = true /\ Str.all_space r = true).
Proof.
  intros Htk Ftk Hqt Fqt base.
  assert (A : forall s, Str.strip s <> "" -> Str.all_space s = false).
  { intros s Hs. destruct (Str.all_space s) eqn:E; [|reflexivity].
    apply strip_empty_iff in E. contradiction. }
  split; [|split; [|split; [|split]]].
  - rewrite tk_start_download_cmd, Htk. cbn.
    rewrite (A _ Ftk), output_template_base. reflexivity.
  - rewrite qt_start_download_cmd, Hqt. cbn.
    rewrite (A _ Fqt), output_template_base. reflexivity.
  - apply strip_empty_iff.
  - apply strip_edges.
  - apply strip_decompose.
Qed.

Lemma video_download_command_line_witness :
  snd (Tk.start_download
         (tk_form "yt-dlp.exe" "video" "https://x/1" "137+140" "clip" "/d"))
  = ["yt-dlp.exe"; "-f"; "137+140"; "--merge-output-format"; "mp4"; "-o";
     "/d/clip.%(ext)s"; "https://x/1"]
  /\ snd (Qt.start_download
            (qt_form "yt-dlp.exe" false "https://x/1" "137+140" "  " "/d"))
  = ["yt-dlp.exe"; "-f"; "137+140"; "--merge-output-format"; "mp4"; "-o";
     "/d/%(title)s.%(ext)s"; "https://x/1"].
Proof.
  assert (N : forall c s, String c s <> "") by (intros c s H; discriminate H).
  pose proof (video_download_command_line
                (tk_form "yt-dlp.exe" "video" "https://x/1" "137+140" "clip" "/d")
                (qt_form "yt-dlp.exe" false "https://x/1" "137+140" "  " "/d")
                eq_refl (N _ _) eq_refl (N _ _)) as H.
  exact (conj (proj1 H) (proj1 (proj2 H))).
Defined.

(** The state of the button after [validate]: it looks at the stripped
    URL only. *)
Lemma tk_validate_button (g : Tk.Gui) :
  Tk.download_btn (Tk.validate g) =
  negb (Tk.process_running g)
  && (Str.truthy (Tk.download_type g) && Str.truthy (Str.strip (Tk.url_var g))).
Proof.
  unfold Tk.validate.
  destruct (Tk.process_running g); [reflexivity|]. cbn -[Str.strip].
  now destruct (Tk.download_type g =? "video")%string.
Qed.

Lemma qt_validate_button (g : Qt.Gui) :
  Qt.download_btn (Qt.validate g) =
  negb (Qt.process_running g) && Str.truthy (Str.strip (Qt.url_entry g)).
Proof.
  unfold Qt.validate.
  now destruct (Qt.process_running g).
Qed.

(** C10. The URL is the last argument of every command exactly as the
    user entered it, and the format follows [-f] exactly as entered:
    stripping is applied only where emptiness is tested (the format
    check of [start_download], the URL check of [validate]).  A URL
    entered with surrounding spaces reaches the tool with them. *)
Theorem arguments_inserted_verbatim (tk : Tk.Gui) (qt : Qt.Gui) :
  List.last (snd (Tk.start_download tk)) "" = Tk.url_var tk
  /\ List.last (snd (Qt.start_download qt)) "" = Qt.url_entry qt
  /\ snd (Tk.start_download tk) =
     (let template := output_template (Tk.download_path tk) (Tk.filename_var tk) in
      if (Tk.download_type tk =? "audio")%string then
        [Tk.yt_dlp_path tk; "-x"; "--audio-format"; "mp3"; "-o"; template;
         Tk.url_var tk]
      else if Str.truthy (Str.strip (Tk.format_var tk)) then
        [Tk.yt_dlp_path tk; "-f"; Tk.format_var tk; "--merge-output-format";
         "mp4"; "-o"; template; Tk.url_var tk]
      else [Tk.yt_dlp_path tk; "-F"; Tk.url_var tk])
  /\ snd (Qt.start_download qt) =
     (let template := output_template (Qt.download_folder qt) (Qt.filename_entry qt) in
      if Qt.radio_audio qt then
        [Qt.yt_dlp_path qt; "-x"; "--audio-format"; "mp3"; "-o"; template;
         Qt.url_entry qt]
      else if Str.truthy (Str.strip (Qt.format_entry qt)) then
        [Qt.yt_dlp_path qt; "-f"; Qt.format_entry qt; "--merge-output-format";
         "mp4"; "-o"; template; Qt.url_entry qt]
      else [Qt.yt_dlp_path qt; "-F"; Qt.url_entry qt])
  /\ Tk.download_btn (Tk.validate tk) =
     negb (Tk.process_running tk)
     && (Str.truthy (Tk.download_type tk) && Str.truthy (Str.strip (Tk.url_var tk)))
  /\ Qt.download_btn (Qt.validate qt) =
     negb (Qt.process_running qt) && Str.truthy (Str.strip (Qt.url_entry qt))
  /\ (forall exe,
        snd (Tk.start_download
               (tk_form exe "video" "  https://x/1 " " 137+140 " "" "/d"))
        = [exe; "-f"; " 137+140 "; "--merge-output-format"; "mp4"; "-o";
           "/d/%(title)s.%(ext)s"; "  https://x/1 "])
  /\ (forall exe,
        snd (Qt.start_download
               (qt_form exe true "  https://x/1 " "" "" "/d"))
        = [exe; "-x"; "--audio-format"; "mp3"; "-o"; "/d/%(title)s.%(ext)s";
           "  https://x/1 "]).
Proof.
  assert (T : snd (Tk.start_download tk) = _) by apply tk_start_download_cmd.
  assert (Q : snd (Qt.start_download qt) = _) by apply qt_start_download_cmd.
  cbn zeta in T, Q. rewrite all_space_strip in T, Q.
  split; [|split; [|split; [|split; [|split; [|split; [|split]]]]]].
  - rewrite T.
    destruct (Tk.download_type tk =? "audio")%string; [reflexivity|].
    now destruct (Str.truthy (Str.strip (Tk.format_var tk))).
  - rewrite Q.
    destruct (Qt.radio_audio qt); [reflexivity|].
    now destruct (Str.truthy (Str.strip (Qt.format_entry qt))).
  - rewrite T.
    destruct (Tk.download_type tk =? "audio")%string; [reflexivity|].
    now destruct (Str.truthy (Str.strip (Tk.format_var tk))).
  - rewrite Q.
    destruct (Qt.radio_audio qt); [reflexivity|].
    now destruct (Str.truthy (Str.strip (Qt.format_entry qt))).
  - apply tk_validate_button.
  - apply qt_validate_button.
  - reflexivity.
  - reflexivity.
Qed.

(* ================================================================== *)
(** ** The worker thread *)
(* ================================================================== *)

(** The pump loop of the Tk worker: one [put] per line, then the stream
    ends or raises. *)
Lemma tk_pump_loop (lines : list string) (fails : bool) (collected : string) :
  Thread.for_lines lines fails
    (fun collected line =>
       Thread.tell (Tk.QueuePut line) ;;; Thread.ret (collected +++ line))
    collected
  = (map Tk.QueuePut lines,
     if fails then inl ReadError
     else inr (fold_left String.append lines collected)).
Proof.
  revert collected. induction lines as [|l rest IH]; intro collected.
  - cbn. now destruct fails.
  - cbn [Thread.for_lines]. unfold Thread.bind at 1. cbn.
    rewrite IH. reflexivity.
Qed.

Lemma qt_pump_loop (lines : list string) (fails : bool) :
  Thread.for_lines lines fails
    (fun (_ : unit) line => Thread.tell (Qt.Emit (Qt.OutputSignal line))) tt
  = (map (fun l => Qt.Emit (Qt.OutputSignal l)) lines,
     if fails then inl ReadError else inr tt).
Proof.
  induction lines as [|l rest IH].
  - cbn. now destruct fails.
  - cbn [Thread.for_lines]. unfold Thread.bind at 1. cbn.
    rewrite IH. reflexivity.
Qed.

(** Everything a Tk worker does, in order. *)
Lemma tk_run_process_trace (cmd : list string) (p : Process) :
  Thread.trace (Tk.run_process cmd p) =
  [Tk.SetProcessRunning true; Tk.ProgressStart]
  ++ (if spawn_ok p then
        Tk.Popen cmd :: map Tk.QueuePut (stdout_lines p)
        ++ (if read_fails p then [] else [Tk.ProcessWait])
      else [])
  ++ [Tk.SetProcessRunning false; Tk.ProgressStop; Tk.Validate].
Proof.
  unfold Tk.run_process, Tk.popen.
  destruct (spawn_ok p); [|reflexivity].
  cbn -[Thread.for_lines]. rewrite tk_pump_loop.
  destruct (read_fails p); cbn; rewrite ?app_nil_r, <- ?app_assoc; reflexivity.
Qed.

(** Everything a Qt worker does, in order. *)
Lemma qt_run_process_trace (cmd : list string) (p : Process) :
  Thread.trace (Qt.run_process cmd p) =
  [Qt.SetProcessRunning true]
  ++ (if spawn_ok p then
        Qt.Popen cmd :: map (fun l => Qt.Emit (Qt.OutputSignal l)) (stdout_lines p)
        ++ (if read_fails p then [] else [Qt.ProcessWait])
      else [])
  ++ [Qt.Emit Qt.ProcessFinished].
Proof.
  unfold Qt.run_process, Qt.popen.
  destruct (spawn_ok p); [|reflexivity].
  cbn -[Thread.for_lines]. rewrite qt_pump_loop.
  destruct (read_fails p); cbn; rewrite ?app_nil_r, <- ?app_assoc; reflexivity.
Qed.

(** How a worker ends: with the exception of the failed spawn or read,
    or normally. *)
Lemma tk_run_process_outcome (cmd : list string) (p : Process) :
  Thread.outcome (Tk.run_process cmd p) =
  if spawn_ok p then (if read_fails p then inl ReadError else inr tt)
  else inl OSError.
Proof.
  unfold Tk.run_process, Tk.popen.
  destruct (spawn_ok p); [|reflexivity].
  cbn -[Thread.for_lines]. rewrite tk_pump_loop.
  now destruct (read_fails p).
Qed.

Lemma qt_run_process_outcome (cmd : list string) (p : Process) :
  Thread.outcome (Qt.run_process cmd p) =
  if spawn_ok p then (if read_fails p then inl ReadError else inr tt)
  else inl OSError.
Proof.
  unfold Qt.run_process, Qt.popen.
  destruct (spawn_ok p); [|reflexivity].
  cbn -[Thread.for_lines]. rewrite qt_pump_loop.
  now destruct (read_fails p).
Qed.

Lemma tk_exec_all_app (a b : list Tk.Action) (g : Tk.Gui) :
  Tk.exec_all (a ++ b) g =
  match Tk.exec_all a g with
  | Some g' => Tk.exec_all b g'
  | None => None
  end.
Proof.
  revert g. induction a as [|x a IH]; intro g; cbn [Tk.exec_all app].
  - reflexivity.
  - destruct (Tk.exec_action x g); [apply IH | reflexivity].
Qed.

(** On an unbounded queue no [put] blocks: the lines are appended in
    order and nothing else changes. *)
Lemma tk_exec_all_puts (lines : list string) (g : Tk.Gui) :
  Queue.maxsize (Tk.output_queue g) = 0 ->
  Tk.exec_all (map Tk.QueuePut lines) g =
  Some (Tk.set_output_queue
          {| Queue.maxsize := 0;
             Queue.items := Queue.items (Tk.output_queue g) ++ lines |} g).
Proof.
  revert g. induction lines as [|l rest IH]; intros g Hq.
  - cbn. rewrite app_nil_r. rewrite <- Hq.
    destruct g as [? ? ? ? ? ? ? [m it] ? ? ? ?]. reflexivity.
  - cbn [map Tk.exec_all Tk.exec_action].
    unfold Queue.put, Queue.full. rewrite Hq. cbn [Nat.ltb Nat.leb andb].
    rewrite IH by reflexivity. cbn. now rewrite <- app_assoc.
Qed.

Lemma tk_validate_process_running (g : Tk.Gui) :
  Tk.process_running (Tk.validate g) = Tk.process_running g.
Proof.
  unfold Tk.validate. destruct (Tk.process_running g) eqn:E; cbn; [exact E|].
  now destruct (Tk.download_type g =? "video")%string.
Qed.

(** A Tk worker left alone runs to its end and leaves the flag reset. *)
Lemma tk_worker_resets_flag (cmd : list string) (p : Process) (g : Tk.Gui) :
  Queue.maxsize (Tk.output_queue g) = 0 ->
  exists g', Tk.exec_all (Thread.trace (Tk.run_process cmd p)) g = Some g'
             /\ Tk.process_running g' = false.
Proof.
  intro Hq. rewrite tk_run_process_trace.
  set (fin := [Tk.SetProcessRunning false; Tk.ProgressStop; Tk.Validate]).
  assert (F : forall g0, exists g', Tk.exec_all fin g0 = Some g'
                                    /\ Tk.process_running g' = false).
  { intro g0. eexists. split; [reflexivity|].
    now rewrite tk_validate_process_running. }
  cbn [app Tk.exec_all Tk.exec_action].
  destruct (spawn_ok p); [|apply F].
  cbn [app Tk.exec_all Tk.exec_action].
  rewrite <- app_assoc, tk_exec_all_app, tk_exec_all_puts by exact Hq.
  destruct (read_fails p); cbn [app Tk.exec_all Tk.exec_action]; apply F.
Qed.

Lemma qt_exec_all_emits (lines : list string) (g : Qt.Gui) (q : list Qt.Signal) :
  Qt.exec_all (map (fun l => Qt.Emit (Qt.OutputSignal l)) lines) (g, q) =
  (g, q ++ map Qt.OutputSignal lines).
Proof.
  revert q. induction lines as [|l rest IH]; intro q; cbn.
  - now rewrite app_nil_r.
  - unfold Qt.exec_all in IH. rewrite IH. now rewrite <- app_assoc.
Qed.

(** What a Qt worker left alone does to the shared state: it sets the
    flag and posts its lines and the final signal. *)
Lemma qt_worker_effect (cmd : list string) (p : Process) (g : Qt.Gui)
      (q : list Qt.Signal) :
  Qt.exec_all (Thread.trace (Qt.run_process cmd p)) (g, q) =
  (Qt.set_process_running true g,
   q ++ (if spawn_ok p then map Qt.OutputSignal (stdout_lines p) else [])
     ++ [Qt.ProcessFinished]).
Proof.
  rewrite qt_run_process_trace. unfold Qt.exec_all.
  destruct (spawn_ok p); [|reflexivity].
  cbn [app fold_left Qt.exec_action].
  rewrite !fold_left_app.
  pose proof (qt_exec_all_emits (stdout_lines p) (Qt.set_process_running true g) q) as E.
  unfold Qt.exec_all in E. rewrite E.
  destruct (read_fails p); cbn; now rewrite <- app_assoc.
Qed.

Lemma qt_validate_process_running (g : Qt.Gui) :
  Qt.process_running (Qt.validate g) = Qt.process_running g.
Proof.
  unfold Qt.validate. now destruct (Qt.process_running g) eqn:E; cbn.
Qed.

Lemma qt_on_process_finished_flag (g : Qt.Gui) :
  Qt.process_running (Qt.on_process_finished g) = false.
Proof.
  unfold Qt.on_process_finished. now rewrite qt_validate_process_running.
Qed.

(** C3 (as the code has it).  A failed read ends the pump loop early and
    the [finally] block still runs, but the wait is skipped; a non-zero
    exit status changes nothing: the worker never looks at it.  Whatever
    the process does, the worker's effects are the flag write, the
    spawn, one relay event per line read, the wait when the stream ended
    normally, and the finalisation (Tk: flag reset, progress stop,
    validate; Qt: the finished signal, whose slot resets the flag); the
    exception of a failed spawn or read is raised again after the
    finalisation.  A worker left alone therefore never leaves the flag
    set. *)
Theorem job_always_finalised (cmd : list string) (p : Process)
        (tk : Tk.Gui) (qt : Qt.Gui) (q0 : list Qt.Signal) :
  Queue.maxsize (Tk.output_queue tk) = 0 ->
  Thread.trace (Tk.run_process cmd p) =
    [Tk.SetProcessRunning true; Tk.ProgressStart]
    ++ (if spawn_ok p then
          Tk.Popen cmd :: map Tk.QueuePut (stdout_lines p)
          ++ (if read_fails p then [] else [Tk.ProcessWait])
        else [])
    ++ [Tk.SetProcessRunning false; Tk.ProgressStop; Tk.Validate]
  /\ Thread.trace (Qt.run_process cmd p) =
    [Qt.SetProcessRunning true]
    ++ (if spawn_ok p then
          Qt.Popen cmd :: map (fun l => Qt.Emit (Qt.OutputSignal l)) (stdout_lines p)
          ++ (if read_fails p then [] else [Qt.ProcessWait])
        else [])
    ++ [Qt.Emit Qt.ProcessFinished]
  /\ (forall z, Thread.trace (Tk.run_process cmd (with_exit_status z p))
                = Thread.trace (Tk.run_process cmd p))
  /\ (forall z, Thread.trace (Qt.run_process cmd (with_exit_status z p))
                = Thread.trace (Qt.run_process cmd p))
  /\ Thread.outcome (Tk.run_process cmd p) =
     (if spawn_ok p then (if read_fails p then inl ReadError else inr tt)
      else inl OSError)
  /\ Thread.outcome (Qt.run_process cmd p) =
     (if spawn_ok p then (if read_fails p then inl ReadError else inr tt)
      else inl OSError)
  /\ (exists tk', Tk.exec_all (Thread.trace (Tk.run_process cmd p)) tk = Some tk'
                  /\ Tk.process_running tk' = false)
  /\ Qt.process_running
       (Qt.deliver_all
          (snd (Qt.exec_all (Thread.trace (Qt.run_process cmd p)) (qt, q0)))
          (fst (Qt.exec_all (Thread.trace (Qt.run_process cmd p)) (qt, q0))))
     = false.
Proof.
  intro Hq.
  split; [apply tk_run_process_trace|].
  split; [apply qt_run_process_trace|].
  split; [intro z; now rewrite !tk_run_process_trace|].
  split; [intro z; now rewrite !qt_run_process_trace|].
  split; [apply tk_run_process_outcome|].
  split; [apply qt_run_process_outcome|].
  split; [now apply tk_worker_resets_flag|].
  rewrite qt_worker_effect. cbn [fst snd]. unfold Qt.deliver_all.
  rewrite !app_assoc, fold_left_app. cbn [fold_left Qt.slot].
  apply qt_on_process_finished_flag.
Qed.

Lemma job_always_finalised_witness :
  exists tk', Tk.exec_all (Thread.trace (Tk.run_process ["yt-dlp.exe"] broken_pipe))
                (Tk.initial "yt-dlp.exe" "/tmp") = Some tk'
              /\ Tk.process_running tk' = false.
Proof.
  exact (proj1 (proj2 (proj2 (proj2 (proj2 (proj2 (proj2
    (job_always_finalised ["yt-dlp.exe"] broken_pipe
       (Tk.initial "yt-dlp.exe" "/tmp") (Qt.initial "yt-dlp.exe" "/tmp") []
       eq_refl)))))))).
Defined.

(** C3, the claim as stated, fails: on a stream that breaks after one
    line neither worker waits for its process. *)
Lemma read_failure_skips_wait :
  Thread.trace (Tk.run_process ["yt-dlp.exe"] broken_pipe) =
    [Tk.SetProcessRunning true; Tk.ProgressStart; Tk.Popen ["yt-dlp.exe"];
     Tk.QueuePut "a"; Tk.SetProcessRunning false; Tk.ProgressStop; Tk.Validate]
  /\ Thread.trace (Qt.run_process ["yt-dlp.exe"] broken_pipe) =
    [Qt.SetProcessRunning true; Qt.Popen ["yt-dlp.exe"];
     Qt.Emit (Qt.OutputSignal "a"); Qt.Emit Qt.ProcessFinished]
  /\ ~ tk_waits_after_read_failure
  /\ ~ qt_waits_after_read_failure.
Proof.
  split; [reflexivity|]. split; [reflexivity|]. split.
  - intro H. destruct (H ["yt-dlp.exe"] broken_pipe eq_refl eq_refl) as [pre E].
    apply (f_equal (@rev _)) in E. rewrite rev_app_distr in E.
    cbn in E. discriminate E.
  - intro H. destruct (H ["yt-dlp.exe"] broken_pipe eq_refl eq_refl) as [pre E].
    apply (f_equal (@rev _)) in E. rewrite rev_app_distr in E.
    cbn in E. discriminate E.
Qed.

(* ================================================================== *)
(** ** The output relay *)
(* ================================================================== *)

(** [process_queue] moves every queued line to the output, oldest
    first, and leaves the queue empty. *)
Lemma tk_process_queue_loop (fuel : nat) (g : Tk.Gui) :
  List.length (Queue.items (Tk.output_queue g)) <= fuel ->
  Tk.output (Tk.process_queue_loop fuel g)
  = Tk.output g ++ Queue.items (Tk.output_queue g)
  /\ Queue.items (Tk.output_queue (Tk.process_queue_loop fuel g)) = []
  /\ Queue.maxsize (Tk.output_queue (Tk.process_queue_loop fuel g))
     = Queue.maxsize (Tk.output_queue g).
Proof.
  revert g. induction fuel as [|fuel IH]; intros g Hlen.
  - cbn. destruct (Queue.items (Tk.output_queue g)) eqn:E; cbn in Hlen; [|lia].
    now rewrite app_nil_r.
  - cbn [Tk.process_queue_loop]. unfold Queue.empty, Queue.get.
    destruct (Queue.items (Tk.output_queue g)) as [|x rest] eqn:E.
    + now rewrite E, app_nil_r.
    + cbn in Hlen.
      destruct (IH (Tk.append_output x
                      (Tk.set_output_queue
                         {| Queue.maxsize := Queue.maxsize (Tk.output_queue g);
                            Queue.items := rest |} g)))
        as [H1 [H2 H3]]; [cbn; lia|].
      rewrite H1, H2, H3. cbn. now rewrite <- app_assoc.
Qed.

Lemma tk_process_queue_spec (g : Tk.Gui) :
  Tk.output (Tk.process_queue g) = Tk.output g ++ Queue.items (Tk.output_queue g)
  /\ Queue.items (Tk.output_queue (Tk.process_queue g)) = []
  /\ Queue.maxsize (Tk.output_queue (Tk.process_queue g))
     = Queue.maxsize (Tk.output_queue g).
Proof.
  unfold Tk.process_queue. apply tk_process_queue_loop. lia.
Qed.

(** Producer and consumer interleaved: no step blocks, and what has been
    delivered followed by what is still queued is what was pushed. *)
Lemma relay_run_fifo (ops : list RelayOp) (g : Tk.Gui) :
  Queue.maxsize (Tk.output_queue g) = 0 ->
  exists g', relay_run ops g = Some g'
    /\ Queue.maxsize (Tk.output_queue g') = 0
    /\ Tk.output g' ++ Queue.items (Tk.output_queue g')
       = Tk.output g ++ Queue.items (Tk.output_queue g) ++ pushed ops.
Proof.
  revert g. induction ops as [|op ops IH]; intros g Hq.
  - exists g. cbn. now rewrite app_nil_r.
  - destruct op as [line|]; cbn [relay_run relay_step pushed flat_map].
    + cbn [Tk.exec_action]. unfold Queue.put, Queue.full. rewrite Hq.
      cbn [Nat.ltb Nat.leb andb].
      destruct (IH (Tk.set_output_queue
                      {| Queue.maxsize := 0;
                         Queue.items := Queue.items (Tk.output_queue g) ++ [line] |}
                      g) eq_refl) as [g' [R [M F]]].
      exists g'. split; [exact R|]. split; [exact M|].
      rewrite F. cbn. now rewrite <- !app_assoc.
    + destruct (tk_process_queue_spec g) as [O [I M]].
      destruct (IH (Tk.process_queue g)) as [g' [R [M' F]]]; [now rewrite M|].
      exists g'. split; [exact R|]. split; [exact M'|].
      rewrite F, O, I. cbn. now rewrite <- !app_assoc.
Qed.

Lemma tk_relay_events_app (a b : list Tk.Action) :
  tk_relay_events (a ++ b) = tk_relay_events a ++ tk_relay_events b.
Proof. apply flat_map_app. Qed.

Lemma qt_relay_events_app (a b : list Qt.Action) :
  qt_relay_events (a ++ b) = qt_relay_events a ++ qt_relay_events b.
Proof. apply flat_map_app. Qed.

Lemma tk_relay_events_puts (lines : list string) :
  tk_relay_events (map Tk.QueuePut lines) = map Line lines.
Proof.
  induction lines as [|l rest IH]; cbn; [reflexivity | now rewrite <- IH].
Qed.

Lemma qt_relay_events_emits (lines : list string) :
  qt_relay_events (map (fun l => Qt.Emit (Qt.OutputSignal l)) lines) = map Line lines.
Proof.
  induction lines as [|l rest IH]; cbn; [reflexivity | now rewrite <- IH].
Qed.

Lemma tk_worker_stream (cmd : list string) (p : Process) :
  tk_relay_events (Thread.trace (Tk.run_process cmd p)) =
  if spawn_ok p then map Line (stdout_lines p) else [].
Proof.
  rewrite tk_run_process_trace.
  destruct (spawn_ok p); [|reflexivity].
  rewrite !tk_relay_events_app. cbn [tk_relay_events flat_map app].
  fold (tk_relay_events (map Tk.QueuePut (stdout_lines p)
                         ++ (if read_fails p then [] else [Tk.ProcessWait]))).
  rewrite tk_relay_events_app, tk_relay_events_puts.
  destruct (read_fails p); cbn; now rewrite !app_nil_r.
Qed.

Lemma qt_worker_stream (cmd : list string) (p : Process) :
  qt_relay_events (Thread.trace (Qt.run_process cmd p)) =
  (if spawn_ok p then map Line (stdout_lines p) else []) ++ [Finished].
Proof.
  rewrite qt_run_process_trace.
  destruct (spawn_ok p); [|reflexivity].
  rewrite !qt_relay_events_app. cbn [qt_relay_events flat_map app].
  fold (qt_relay_events (map (fun l => Qt.Emit (Qt.OutputSignal l)) (stdout_lines p)
                         ++ (if read_fails p then [] else [Qt.ProcessWait]))).
  rewrite qt_relay_events_app, qt_relay_events_emits.
  destruct (read_fails p); cbn; now rewrite ?app_nil_r.
Qed.

Lemma qt_validate_output (g : Qt.Gui) : Qt.output (Qt.validate g) = Qt.output g.
Proof. unfold Qt.validate. now destruct (Qt.process_running g). Qed.

Lemma qt_deliver_lines (lines : list string) (g : Qt.Gui) :
  Qt.output (Qt.deliver_all (map Qt.OutputSignal lines ++ [Qt.ProcessFinished]) g)
  = Qt.output g ++ lines.
Proof.
  unfold Qt.deliver_all. rewrite fold_left_app. cbn [fold_left Qt.slot].
  unfold Qt.on_process_finished. rewrite qt_validate_output. cbn.
  revert g. induction lines as [|l rest IH]; intro g; cbn.
  - now rewrite app_nil_r.
  - rewrite IH. cbn. now rewrite <- app_assoc.
Qed.

Lemma tk_validate_queue (g : Tk.Gui) :
  Tk.output_queue (Tk.validate g) = Tk.output_queue g.
Proof.
  unfold Tk.validate. destruct (Tk.process_running g); [reflexivity|]. cbn.
  now destruct (Tk.download_type g =? "video")%string.
Qed.

Lemma tk_start_download_queue (g : Tk.Gui) :
  Tk.output_queue (fst (Tk.start_download g)) = Tk.output_queue g.
Proof.
  unfold Tk.start_download. cbn -[Str.strip output_template String.eqb].
  destruct (Tk.download_type g =? "audio")%string; [reflexivity|].
  now destruct (Str.truthy (Str.strip (Tk.format_var g))).
Qed.

Lemma tk_exec_action_unbounded (a : Tk.Action) (g g' : Tk.Gui) :
  Tk.exec_action a g = Some g' ->
  Queue.maxsize (Tk.output_queue g) = 0 -> Queue.maxsize (Tk.output_queue g') = 0.
Proof.
  destruct a; cbn; intros H Hq; try (inversion H; subst; exact Hq).
  - unfold Queue.put in H. destruct (Queue.full (Tk.output_queue g)); [discriminate|].
    inversion H; subst. exact Hq.
  - inversion H; subst. now rewrite tk_validate_queue.
Qed.

(** The queue created at start-up stays unbounded. *)
Lemma tk_step_unbounded (e : Tk.Event) (c c' : Tk.Config) :
  Tk.step e c = Some c' ->
  Queue.maxsize (Tk.output_queue (Tk.gui c)) = 0 ->
  Queue.maxsize (Tk.output_queue (Tk.gui c')) = 0.
Proof.
  intros H Hq. destruct e; cbn in H.
  - inversion H; subst. cbn. now rewrite tk_validate_queue.
  - inversion H; subst. cbn. now rewrite tk_validate_queue.
  - inversion H; subst. exact Hq.
  - inversion H; subst. exact Hq.
  - inversion H; subst. cbn. now destruct (Str.truthy s).
  - inversion H; subst. unfold Tk.click_download.
    destruct (Tk.download_btn (Tk.gui c)); [|exact Hq].
    pose proof (tk_start_download_queue (Tk.gui c)) as Q.
    destruct (Tk.start_download (Tk.gui c)) as [g cmd]. cbn in *. now rewrite Q.
  - inversion H; subst. cbn.
    destruct (tk_process_queue_spec (Tk.gui c)) as [_ [_ M]]. now rewrite M.
  - unfold Tk.worker_step in H.
    destruct (nth_error (Tk.workers c) i) as [w|]; [|discriminate].
    destruct (advance w) as [[a w']|]; [|discriminate].
    destruct (Tk.exec_action a (Tk.gui c)) as [g|] eqn:E; [|discriminate].
    inversion H; subst. cbn. eapply tk_exec_action_unbounded; eassumption.
Qed.

Lemma tk_reachable_unbounded (exe folder : string) (c : Tk.Config) :
  Tk.reachable exe folder c -> Queue.maxsize (Tk.output_queue (Tk.gui c)) = 0.
Proof.
  intros [es H].
  assert (G : forall es c0, Tk.run es c0 = Some c ->
                            Queue.maxsize (Tk.output_queue (Tk.gui c0)) = 0 ->
                            Queue.maxsize (Tk.output_queue (Tk.gui c)) = 0).
  { clear. intro es. induction es as [|e es IH]; intros c0 H Hq; cbn in H.
    - now inversion H; subst.
    - destruct (Tk.step e c0) as [c1|] eqn:S; [|discriminate].
      eapply IH; [exact H|]. eapply tk_step_unbounded; eassumption. }
  eapply G; [exact H | reflexivity].
Qed.

(** A worker that has something left to do can always take its next
    step: no [put] ever blocks the producer. *)
Lemma tk_worker_never_blocks (exe folder : string) (c : Tk.Config)
      (i : nat) (w : Worker Tk.Action) :
  Tk.reachable exe folder c ->
  nth_error (Tk.workers c) i = Some w ->
  todo w <> [] ->
  exists c', Tk.worker_step i c = Some c'.
Proof.
  intros R N T. apply tk_reachable_unbounded in R.
  unfold Tk.worker_step. rewrite N. unfold advance.
  destruct (todo w) as [|a rest]; [contradiction|].
  destruct a; cbn; try (eexists; reflexivity).
  unfold Queue.put, Queue.full. rewrite R. cbn. eexists; reflexivity.
Qed.

(** C4 (as the code has it).  On the Tk relay, for every interleaving of
    [put]s and runs of [process_queue], no step blocks, the texts
    delivered so far followed by the queue's content are exactly the
    texts pushed, in order, and one more run of [process_queue] delivers
    the rest and empties the queue; in every reachable state a worker
    with work left can take its next step.  A Tk worker puts only its lines on
    the relay; a Qt worker emits its lines and then the finished signal,
    last, and the slots receive them in that order. *)
Theorem relay_is_fifo (ops : list RelayOp) (tk : Tk.Gui)
        (cmd : list string) (p : Process) (qt : Qt.Gui) :
  Queue.maxsize (Tk.output_queue tk) = 0 ->
  (exists tk',
      relay_run ops tk = Some tk'
      /\ Tk.output tk' ++ Queue.items (Tk.output_queue tk')
         = Tk.output tk ++ Queue.items (Tk.output_queue tk) ++ pushed ops
      /\ Tk.output (Tk.process_queue tk')
         = Tk.output tk ++ Queue.items (Tk.output_queue tk) ++ pushed ops
      /\ Queue.items (Tk.output_queue (Tk.process_queue tk')) = [])
  /\ (forall exe folder c i w,
        Tk.reachable exe folder c ->
        nth_error (Tk.workers c) i = Some w ->
        todo w <> [] ->
        exists c', Tk.worker_step i c = Some c')
  /\ tk_relay_events (Thread.trace (Tk.run_process cmd p))
     = (if spawn_ok p then map Line (stdout_lines p) else [])
  /\ qt_relay_events (Thread.trace (Qt.run_process cmd p))
     = (if spawn_ok p then map Line (stdout_lines p) else []) ++ [Finished]
  /\ Qt.output
       (Qt.deliver_all
          (snd (Qt.exec_all (Thread.trace (Qt.run_process cmd p)) (qt, [])))
          (fst (Qt.exec_all (Thread.trace (Qt.run_process cmd p)) (qt, []))))
     = Qt.output qt ++ (if spawn_ok p then stdout_lines p else []).
Proof.
  intro Hq.
  split; [|split; [apply tk_worker_never_blocks
                  |split; [apply tk_worker_stream|split; [apply qt_worker_stream|]]]].
  - destruct (relay_run_fifo ops tk Hq) as [tk' [R [M F]]].
    destruct (tk_process_queue_spec tk') as [O [I _]].
    exists tk'. split; [exact R|]. split; [exact F|].
    split; [now rewrite O, F | exact I].
  - rewrite qt_worker_effect. cbn [fst snd app].
    destruct (spawn_ok p).
    + now rewrite qt_deliver_lines.
    + pose proof (qt_deliver_lines [] (Qt.set_process_running true qt)) as E.
      cbn [map app] in E. exact E.
Qed.

Lemma relay_is_fifo_witness :
  exists tk',
    relay_run [Push "a"; Drain; Push "b"; Push "c"] (Tk.initial "yt-dlp.exe" "/tmp")
    = Some tk'
    /\ Tk.output tk' ++ Queue.items (Tk.output_queue tk') = ["a"; "b"; "c"]
    /\ Tk.output (Tk.process_queue tk') = ["a"; "b"; "c"]
    /\ Queue.items (Tk.output_queue (Tk.process_queue tk')) = [].
Proof.
  exact (proj1 (relay_is_fifo [Push "a"; Drain; Push "b"; Push "c"]
                  (Tk.initial "yt-dlp.exe" "/tmp") ["yt-dlp.exe"] (ok_process [])
                  (Qt.initial "yt-dlp.exe" "/tmp") eq_refl)).
Defined.

(** C4, the claim as stated, fails for the Tk front-end: its worker puts
    no finished event on the relay, so a job's stream does not end with
    one; the end of the job is a write to the flag made by the worker
    itself, which the window can see while a line of that job is still
    queued and is delivered by a later tick. *)
Lemma tk_relay_has_no_finished :
  tk_relay_events (Thread.trace (Tk.run_process ["yt-dlp.exe"] (ok_process ["a"])))
  = [Line "a"]
  /\ ~ tk_stream_ends_with_finished
  /\ exists c,
       Tk.run tk_late_drain (Tk.start "yt-dlp.exe" "/tmp") = Some c
       /\ Tk.running_jobs c = 0
       /\ Tk.process_running (Tk.gui c) = false
       /\ Queue.items (Tk.output_queue (Tk.gui c)) = ["a"]
       /\ Tk.output (Tk.process_queue (Tk.gui c)) = Tk.output (Tk.gui c) ++ ["a"].
Proof.
  split; [reflexivity|]. split.
  - intro H. destruct (H ["yt-dlp.exe"] (ok_process ["a"])) as [lines E].
    apply (f_equal (@rev _)) in E. rewrite rev_app_distr in E.
    cbn in E. discriminate E.
  - eexists. split; [vm_compute; reflexivity|].
    repeat split; vm_compute; reflexivity.
Qed.

(* ================================================================== *)
(** ** Start-up *)
(* ================================================================== *)

(** C9. When the downloader is absent, both scripts call it once, show
    the error dialog and exit: the main window is never shown and the
    call is not repeated. *)
Theorem missing_executable_is_fatal (h : Startup.Host) :
  Startup.has_program h (Startup.yt_dlp_path h) = false ->
  Startup.tk_main h =
    ([Startup.Ran [Startup.yt_dlp_path h; "--update"];
      Startup.ErrorDialog "Error" "yt-dlp was not found in PATH"],
     Startup.Exit 0)
  /\ Startup.qt_main h =
    ([Startup.Ran [Startup.yt_dlp_path h; "--update"]; Startup.AppCreated;
      Startup.ErrorDialog "Error" "yt-dlp was not found in PATH"],
     Startup.Exit 1)
  /\ existsb Startup.is_WindowShown (fst (Startup.tk_main h)) = false
  /\ existsb Startup.is_WindowShown (fst (Startup.qt_main h)) = false
  /\ List.length (filter Startup.is_Ran (fst (Startup.tk_main h))) = 1
  /\ List.length (filter Startup.is_Ran (fst (Startup.qt_main h))) = 1.
Proof.
  intro H.
  unfold Startup.tk_main, Startup.qt_main, Startup.subprocess_run, Startup.update_args.
  rewrite H. repeat split.
Qed.

Lemma missing_executable_is_fatal_witness :
  Startup.tk_main bare_host =
    ([Startup.Ran ["/opt/app/yt-dlp.exe"; "--update"];
      Startup.ErrorDialog "Error" "yt-dlp was not found in PATH"],
     Startup.Exit 0).
Proof.
  exact (proj1 (missing_executable_is_fatal bare_host eq_refl)).
Defined.

(* ================================================================== *)
(** ** The single-flight guard *)
(* ================================================================== *)

Lemma Forall_replace_nth {A} (P : A -> Prop) (i : nat) (x : A) (l : list A) :
  Forall P l -> P x -> Forall P (replace_nth i x l).
Proof.
  intros Hl Hx. revert i. induction Hl as [|y l Hy Hl IH]; intro i.
  - destruct i; constructor.
  - destruct i; cbn; constructor; auto.
Qed.

Lemma advance_keeps_program {Act} (w w' : Worker Act) (a : Act) :
  advance w = Some (a, w') -> done w' ++ todo w' = done w ++ todo w.
Proof.
  unfold advance. destruct (todo w) as [|b rest]; [discriminate|].
  intro H. inversion H; subst. cbn. now rewrite <- app_assoc.
Qed.

(** Workers are only ever created by a click, from [run_process], and a
    scheduling step moves one action from [todo] to [done]. *)
Lemma tk_step_workers (e : Tk.Event) (c c' : Tk.Config) :
  Tk.step e c = Some c' ->
  Forall tk_worker_ok (Tk.workers c) -> Forall tk_worker_ok (Tk.workers c').
Proof.
  intros H Inv.
  destruct e; cbn in H;
    try (inversion H; subst; exact Inv).
  - inversion H; subst. unfold Tk.click_download.
    destruct (Tk.download_btn (Tk.gui c)); [|exact Inv].
    destruct (Tk.start_download (Tk.gui c)) as [g cmd]. cbn.
    apply Forall_app. split; [exact Inv|].
    constructor; [|constructor]. now exists cmd, p.
  - unfold Tk.worker_step in H.
    destruct (nth_error (Tk.workers c) i) as [w|] eqn:N; [|discriminate].
    destruct (advance w) as [[a w']|] eqn:A; [|discriminate].
    destruct (Tk.exec_action a (Tk.gui c)); [|discriminate].
    inversion H; subst. cbn.
    apply Forall_replace_nth; [exact Inv|].
    apply nth_error_In in N.
    rewrite Forall_forall in Inv. destruct (Inv w N) as [cmd [p E]].
    exists cmd, p. now rewrite (advance_keeps_program _ _ _ A).
Qed.

Lemma tk_run_workers (es : list Tk.Event) (c c' : Tk.Config) :
  Tk.run es c = Some c' ->
  Forall tk_worker_ok (Tk.workers c) -> Forall tk_worker_ok (Tk.workers c').
Proof.
  revert c. induction es as [|e es IH]; intros c H Inv; cbn in H.
  - now inversion H; subst.
  - destruct (Tk.step e c) as [c1|] eqn:S; [|discriminate].
    eapply IH; [exact H|]. eapply tk_step_workers; eassumption.
Qed.

Lemma tk_reachable_workers (exe folder : string) (c : Tk.Config) :
  Tk.reachable exe folder c -> Forall tk_worker_ok (Tk.workers c).
Proof.
  intros [es H]. eapply tk_run_workers; [exact H|]. constructor.
Qed.

Lemma qt_step_workers (e : Qt.Event) (c c' : Qt.Config) :
  Qt.step e c = Some c' ->
  Forall qt_worker_ok (Qt.workers c) -> Forall qt_worker_ok (Qt.workers c').
Proof.
  intros H Inv.
  destruct e; cbn in H;
    try (inversion H; subst; exact Inv).
  - inversion H; subst. unfold Qt.click_download.
    destruct (Qt.download_btn (Qt.gui c)); [|exact Inv].
    destruct (Qt.start_download (Qt.gui c)) as [g cmd]. cbn.
    apply Forall_app. split; [exact Inv|].
    constructor; [|constructor]. now exists cmd, p.
  - unfold Qt.dispatch in H.
    destruct (Qt.posted c); [discriminate|]. inversion H; subst. exact Inv.
  - unfold Qt.worker_step in H.
    destruct (nth_error (Qt.workers c) i) as [w|] eqn:N; [|discriminate].
    destruct (advance w) as [[a w']|] eqn:A; [|discriminate].
    destruct (Qt.exec_action a (Qt.gui c, Qt.posted c)) as [g q].
    inversion H; subst. cbn.
    apply Forall_replace_nth; [exact Inv|].
    apply nth_error_In in N.
    rewrite Forall_forall in Inv. destruct (Inv w N) as [cmd [p E]].
    exists cmd, p. now rewrite (advance_keeps_program _ _ _ A).
Qed.

Lemma qt_run_workers (es : list Qt.Event) (c c' : Qt.Config) :
  Qt.run es c = Some c' ->
  Forall qt_worker_ok (Qt.workers c) -> Forall qt_worker_ok (Qt.workers c').
Proof.
  revert c. induction es as [|e es IH]; intros c H Inv; cbn in H.
  - now inversion H; subst.
  - destruct (Qt.step e c) as [c1|] eqn:S; [|discriminate].
    eapply IH; [exact H|]. eapply qt_step_workers; eassumption.
Qed.

Lemma qt_reachable_workers (exe folder : string) (c : Qt.Config) :
  Qt.reachable exe folder c -> Forall qt_worker_ok (Qt.workers c).
Proof.
  intros [es H]. eapply qt_run_workers; [exact H|]. constructor.
Qed.

(** A worker that has spawned its process wrote the flag first. *)
Lemma tk_spawn_after_flag (w : Worker Tk.Action) :
  tk_worker_ok w -> existsb Tk.is_Popen (done w) = true ->
  exists rest, done w = Tk.SetProcessRunning true :: rest.
Proof.
  intros [cmd [p E]] H. rewrite tk_run_process_trace in E.
  destruct (done w) as [|a d]; [discriminate|].
  cbn in E. inversion E; subst. now exists d.
Qed.

Lemma qt_spawn_after_flag (w : Worker Qt.Action) :
  qt_worker_ok w -> existsb Qt.is_Popen (done w) = true ->
  exists rest, done w = Qt.SetProcessRunning true :: rest.
Proof.
  intros [cmd [p E]] H. rewrite qt_run_process_trace in E.
  destruct (done w) as [|a d]; [discriminate|].
  cbn in E. inversion E; subst. now exists d.
Qed.

(** [start_download] never reads the flag. *)
Lemma tk_start_download_ignores_flag (b : bool) (g : Tk.Gui) :
  Tk.start_download (Tk.set_process_running b g) =
  (Tk.set_process_running b (fst (Tk.start_download g)),
   snd (Tk.start_download g)).
Proof.
  unfold Tk.start_download. cbn -[Str.strip output_template String.eqb].
  destruct (Tk.download_type g =? "audio")%string; [reflexivity|].
  now destruct (Str.truthy (Str.strip (Tk.format_var g))).
Qed.

Lemma qt_start_download_ignores_flag (b : bool) (g : Qt.Gui) :
  Qt.start_download (Qt.set_process_running b g) =
  (Qt.set_process_running b (fst (Qt.start_download g)),
   snd (Qt.start_download g)).
Proof.
  unfold Qt.start_download. cbn -[Str.strip output_template].
  destruct (Qt.radio_audio g); [reflexivity|].
  now destruct (Str.truthy (Str.strip (Qt.format_entry g))).
Qed.

Lemma tk_click_workers (p : Process) (c : Tk.Config) :
  Tk.workers (Tk.click_download p c) =
  if Tk.download_btn (Tk.gui c) then
    Tk.workers c
    ++ [spawn_thread (Tk.run_process (snd (Tk.start_download (Tk.gui c))) p)]
  else Tk.workers c.
Proof.
  unfold Tk.click_download. destruct (Tk.download_btn (Tk.gui c)); [|reflexivity].
  now destruct (Tk.start_download (Tk.gui c)).
Qed.

Lemma qt_click_workers (p : Process) (c : Qt.Config) :
  Qt.workers (Qt.click_download p c) =
  if Qt.download_btn (Qt.gui c) then
    Qt.workers c
    ++ [spawn_thread (Qt.run_process (snd (Qt.start_download (Qt.gui c))) p)]
  else Qt.workers c.
Proof.
  unfold Qt.click_download. destruct (Qt.download_btn (Qt.gui c)); [|reflexivity].
  now destruct (Qt.start_download (Qt.gui c)).
Qed.

(** C1 (as the code has it).  While the flag is set, [start_download]
    is not rejected: it never reads the flag and has no rejected
    outcome, and a click on the enabled button starts one more worker.
    Re-entry is gated through the button only: once [validate] has run
    while the flag is set the button is disabled, and a click on the
    disabled button starts nothing. *)
Theorem start_gated_only_by_button (p : Process) (tkc : Tk.Config) (qtc : Qt.Config) :
  Tk.process_running (Tk.gui tkc) = true ->
  Qt.process_running (Qt.gui qtc) = true ->
  (forall b,
      Tk.start_download (Tk.set_process_running b (Tk.gui tkc)) =
      (Tk.set_process_running b (fst (Tk.start_download (Tk.gui tkc))),
       snd (Tk.start_download (Tk.gui tkc))))
  /\ (forall b,
      Qt.start_download (Qt.set_process_running b (Qt.gui qtc)) =
      (Qt.set_process_running b (fst (Qt.start_download (Qt.gui qtc))),
       snd (Qt.start_download (Qt.gui qtc))))
  /\ Tk.workers (Tk.click_download p tkc) =
     (if Tk.download_btn (Tk.gui tkc) then
        Tk.workers tkc
        ++ [spawn_thread (Tk.run_process (snd (Tk.start_download (Tk.gui tkc))) p)]
      else Tk.workers tkc)
  /\ Qt.workers (Qt.click_download p qtc) =
     (if Qt.download_btn (Qt.gui qtc) then
        Qt.workers qtc
        ++ [spawn_thread (Qt.run_process (snd (Qt.start_download (Qt.gui qtc))) p)]
      else Qt.workers qtc)
  /\ Tk.download_btn (Tk.validate (Tk.gui tkc)) = false
  /\ Qt.download_btn (Qt.validate (Qt.gui qtc)) = false
  /\ Tk.click_download p (Tk.on_gui Tk.validate tkc) = Tk.on_gui Tk.validate tkc
  /\ Qt.click_download p (Qt.on_gui Qt.validate qtc) = Qt.on_gui Qt.validate qtc.
Proof.
  intros Rtk Rqt.
  assert (Btk : Tk.download_btn (Tk.validate (Tk.gui tkc)) = false)
    by now rewrite tk_validate_button, Rtk.
  assert (Bqt : Qt.download_btn (Qt.validate (Qt.gui qtc)) = false)
    by now rewrite qt_validate_button, Rqt.
  split; [intro b; apply tk_start_download_ignores_flag|].
  split; [intro b; apply qt_start_download_ignores_flag|].
  split; [apply tk_click_workers|].
  split; [apply qt_click_workers|].
  split; [exact Btk|]. split; [exact Bqt|].
  split.
  - unfold Tk.click_download. cbn [Tk.on_gui Tk.gui]. now rewrite Btk.
  - unfold Qt.click_download. cbn [Qt.on_gui Qt.gui]. now rewrite Bqt.
Qed.

Lemma start_gated_only_by_button_witness :
  Tk.download_btn (Tk.validate (Tk.gui (tk_after tk_second_start))) = false
  /\ Tk.click_download (ok_process ["b"])
       (Tk.on_gui Tk.validate (tk_after tk_second_start))
     = Tk.on_gui Tk.validate (tk_after tk_second_start).
Proof.
  assert (Rtk : Tk.process_running (Tk.gui (tk_after tk_second_start)) = true)
    by (vm_compute; reflexivity).
  assert (Rqt : Qt.process_running (Qt.gui (qt_after qt_second_start)) = true)
    by (vm_compute; reflexivity).
  pose proof (start_gated_only_by_button (ok_process ["b"])
                (tk_after tk_second_start) (qt_after qt_second_start) Rtk Rqt) as H.
  exact (conj (proj1 (proj2 (proj2 (proj2 (proj2 H)))))
              (proj1 (proj2 (proj2 (proj2 (proj2 (proj2 (proj2 H)))))))).
Defined.

(** C1, the claim as stated, fails: in both front-ends a second click,
    made while the first job's process is running and the flag is set,
    starts a second worker, and soon two processes are alive. *)
Lemma second_start_is_not_rejected :
  ~ tk_start_rejected_while_running
  /\ ~ qt_start_rejected_while_running
  /\ Tk.process_running (Tk.gui (tk_after tk_second_start)) = true
  /\ Tk.live_processes
       (tk_after (tk_second_start
                  ++ [Tk.ClickDownload (ok_process ["b"]);
                      Tk.WorkerStep 1; Tk.WorkerStep 1; Tk.WorkerStep 1])) = 2
  /\ Qt.process_running (Qt.gui (qt_after qt_second_start)) = true
  /\ Qt.live_processes
       (qt_after (qt_second_start
                  ++ [Qt.ClickDownload (ok_process ["b"]);
                      Qt.WorkerStep 1; Qt.WorkerStep 1])) = 2.
Proof.
  split; [|split; [|repeat split; vm_compute; reflexivity]].
  - intro H.
    assert (R : Tk.reachable "yt-dlp.exe" "/tmp" (tk_after tk_second_start))
      by (exists tk_second_start; vm_compute; reflexivity).
    assert (F : Tk.process_running (Tk.gui (tk_after tk_second_start)) = true)
      by (vm_compute; reflexivity).
    specialize (H _ _ _ (ok_process ["b"]) R F).
    apply (f_equal (@List.length _)) in H. vm_compute in H. discriminate H.
  - intro H.
    assert (R : Qt.reachable "yt-dlp.exe" "/tmp" (qt_after qt_second_start))
      by (exists qt_second_start; vm_compute; reflexivity).
    assert (F : Qt.process_running (Qt.gui (qt_after qt_second_start)) = true)
      by (vm_compute; reflexivity).
    specialize (H _ _ _ (ok_process ["b"]) R F).
    apply (f_equal (@List.length _)) in H. vm_compute in H. discriminate H.
Qed.

(** C2 (as the code has it).  In every reachable state, a worker that
    has spawned its process has written the flag before, as its first
    action; and [start_download] does not read the flag, so the write is
    not a test. *)
Theorem flag_written_before_spawn (exe folder : string)
        (tkc : Tk.Config) (qtc : Qt.Config) :
  Tk.reachable exe folder tkc ->
  Qt.reachable exe folder qtc ->
  (forall w, In w (Tk.workers tkc) ->
             existsb Tk.is_Popen (done w) = true ->
             exists rest, done w = Tk.SetProcessRunning true :: rest)
  /\ (forall w, In w (Qt.workers qtc) ->
                existsb Qt.is_Popen (done w) = true ->
                exists rest, done w = Qt.SetProcessRunning true :: rest)
  /\ (forall b, snd (Tk.start_download (Tk.set_process_running b (Tk.gui tkc)))
                = snd (Tk.start_download (Tk.gui tkc)))
  /\ (forall b, snd (Qt.start_download (Qt.set_process_running b (Qt.gui qtc)))
                = snd (Qt.start_download (Qt.gui qtc))).
Proof.
  intros Rtk Rqt.
  apply tk_reachable_workers in Rtk. apply qt_reachable_workers in Rqt.
  rewrite Forall_forall in Rtk, Rqt.
  split; [intros w Hw; apply tk_spawn_after_flag; auto|].
  split; [intros w Hw; apply qt_spawn_after_flag; auto|].
  split; intro b.
  - now rewrite tk_start_download_ignores_flag.
  - now rewrite qt_start_download_ignores_flag.
Qed.

Lemma flag_written_before_spawn_witness :
  exists rest,
    done (nth 1 (Tk.workers (tk_after tk_racing_starts)) (spawn_thread (Thread.ret tt)))
    = Tk.SetProcessRunning true :: rest.
Proof.
  assert (Rtk : Tk.reachable "yt-dlp.exe" "/tmp" (tk_after tk_racing_starts))
    by (exists tk_racing_starts; vm_compute; reflexivity).
  assert (Rqt : Qt.reachable "yt-dlp.exe" "/tmp" (qt_after qt_racing_starts))
    by (exists qt_racing_starts; vm_compute; reflexivity).
  apply (proj1
    (flag_written_before_spawn "yt-dlp.exe" "/tmp"
       (tk_after tk_racing_starts) (qt_after qt_racing_starts) Rtk Rqt)).
  - vm_compute. right. left. reflexivity.
  - vm_compute. reflexivity.
Defined.

(** C2, the claim as stated, fails: two clicks made while the flag is
    still clear each start a worker, each worker writes the flag and
    spawns, and two processes are alive at once. *)
Lemma racing_starts_both_spawn :
  ~ tk_single_flight
  /\ ~ qt_single_flight
  /\ Tk.process_running (Tk.gui (tk_after (firstn 2 tk_racing_starts))) = false
  /\ Tk.process_running (Tk.gui (tk_after (firstn 3 tk_racing_starts))) = false
  /\ Tk.live_processes (tk_after tk_racing_starts) = 2
  /\ Qt.process_running (Qt.gui (qt_after (firstn 2 qt_racing_starts))) = false
  /\ Qt.process_running (Qt.gui (qt_after (firstn 3 qt_racing_starts))) = false
  /\ Qt.live_processes (qt_after qt_racing_starts) = 2.
Proof.
  split; [|split; [|repeat split; vm_compute; reflexivity]].
  - intro H.
    assert (R : Tk.reachable "yt-dlp.exe" "/tmp" (tk_after tk_racing_starts))
      by (exists tk_racing_starts; vm_compute; reflexivity).
    specialize (H _ _ _ R). vm_compute in H. lia.
  - intro H.
    assert (R : Qt.reachable "yt-dlp.exe" "/tmp" (qt_after qt_racing_starts))
      by (exists qt_racing_starts; vm_compute; reflexivity).
    specialize (H _ _ _ R). vm_compute in H. lia.
Qed.

(* ================================================================== *)
(** ** Completion *)
(* ================================================================== *)

(** C8. When the Qt event loop delivers a finished signal, its slot
    resets the flag before [validate] reads it: after the delivery the
    flag is clear and the button is enabled exactly when there is a URL.
    The finished signal is the worker's last action, and the worker
    itself writes the flag only once, to set it, before that.  In the Tk
    front-end the worker ends with the flag reset followed by
    [validate], in that order, so [validate] reads the flag clear
    there too. *)
Theorem idle_when_finished_is_observed
        (c : Qt.Config) (rest : list Qt.Signal)
        (cmd : list string) (p : Process) (tk : Tk.Gui) :
  Qt.posted c = Qt.ProcessFinished :: rest ->
  (exists c',
      Qt.dispatch c = Some c'
      /\ Qt.posted c' = rest
      /\ Qt.process_running (Qt.gui c') = false
      /\ Qt.download_btn (Qt.gui c') = Str.truthy (Str.strip (Qt.url_entry (Qt.gui c))))
  /\ (exists front,
        Thread.trace (Qt.run_process cmd p)
        = Qt.SetProcessRunning true :: front ++ [Qt.Emit Qt.ProcessFinished]
        /\ (forall b, ~ In (Qt.SetProcessRunning b) front)
        /\ ~ In (Qt.Emit Qt.ProcessFinished) front)
  /\ (exists front,
        Thread.trace (Tk.run_process cmd p)
        = front ++ [Tk.SetProcessRunning false; Tk.ProgressStop; Tk.Validate])
  /\ (exists tk',
        Tk.exec_all [Tk.SetProcessRunning false; Tk.ProgressStop; Tk.Validate] tk
        = Some tk'
        /\ Tk.process_running tk' = false
        /\ Tk.download_btn tk'
           = Str.truthy (Tk.download_type tk) && Str.truthy (Str.strip (Tk.url_var tk))).
Proof.
  intro Hq.
  split; [|split; [|split]].
  - unfold Qt.dispatch. rewrite Hq. eexists. split; [reflexivity|].
    cbn [Qt.posted Qt.gui Qt.slot]. split; [reflexivity|].
    split; [apply qt_on_process_finished_flag|].
    unfold Qt.on_process_finished. now rewrite qt_validate_button.
  - rewrite qt_run_process_trace.
    exists (if spawn_ok p then
              Qt.Popen cmd
              :: map (fun l => Qt.Emit (Qt.OutputSignal l)) (stdout_lines p)
              ++ (if read_fails p then [] else [Qt.ProcessWait])
            else []).
    split; [reflexivity|].
    assert (E : forall a, In a (map (fun l => Qt.Emit (Qt.OutputSignal l))
                                    (stdout_lines p)
                                ++ (if read_fails p then [] else [Qt.ProcessWait])) ->
                          (exists l, a = Qt.Emit (Qt.OutputSignal l)) \/ a = Qt.ProcessWait).
    { intros a Ha. apply in_app_or in Ha. destruct Ha as [Ha|Ha].
      - apply in_map_iff in Ha. destruct Ha as [l [Hl _]]. left. now exists l.
      - destruct (read_fails p); [contradiction|].
        destruct Ha as [Ha|[]]. now right. }
    split.
    + intros b Hb. destruct (spawn_ok p); [|contradiction].
      destruct Hb as [Hb|Hb]; [discriminate|].
      destruct (E _ Hb) as [[l Hl]|Hl]; discriminate.
    + intro Hb. destruct (spawn_ok p); [|contradiction].
      destruct Hb as [Hb|Hb]; [discriminate|].
      destruct (E _ Hb) as [[l Hl]|Hl]; discriminate.
  - rewrite tk_run_process_trace. eexists. rewrite app_assoc. reflexivity.
  - eexists. split; [reflexivity|].
    split; [now rewrite tk_validate_process_running|].
    now rewrite tk_validate_button.
Qed.

Lemma idle_when_finished_is_observed_witness :
  exists c',
    Qt.dispatch (qt_after qt_job_done) = Some c'
    /\ Qt.posted c' = []
    /\ Qt.process_running (Qt.gui c') = false
    /\ Qt.download_btn (Qt.gui c')
       = Str.truthy (Str.strip (Qt.url_entry (Qt.gui (qt_after qt_job_done)))).
Proof.
  assert (Hq : Qt.posted (qt_after qt_job_done) = [Qt.ProcessFinished])
    by (vm_compute; reflexivity).
  exact (proj1 (idle_when_finished_is_observed (qt_after qt_job_done) []
                  ["yt-dlp.exe"] (ok_process [])
                  (Tk.initial "yt-dlp.exe" "/tmp") Hq)).
Defined.

(* ================================================================== *)
(** ** Further properties: what each handler changes *)
(* ================================================================== *)

Lemma tk_validate_shape (g : Tk.Gui) :
  exists b f, Tk.validate g = Tk.set_format_entry f (Tk.set_download_btn b g).
Proof.
  unfold Tk.validate. destruct (Tk.process_running g).
  - exists false, (Tk.format_entry g). reflexivity.
  - cbn. destruct (Tk.download_type g =? "video")%string; eexists; eexists; reflexivity.
Qed.

Lemma tk_process_queue_loop_shape (fuel : nat) (g : Tk.Gui) :
  exists o q, Tk.process_queue_loop fuel g = Tk.set_output o (Tk.set_output_queue q g).
Proof.
  revert g. induction fuel as [|fuel IH]; intro g.
  - exists (Tk.output g), (Tk.output_queue g). now destruct g.
  - cbn [Tk.process_queue_loop].
    destruct (Queue.empty (Tk.output_queue g)).
    + exists (Tk.output g), (Tk.output_queue g). now destruct g.
    + destruct (Queue.get (Tk.output_queue g)) as [[line q]|].
      * destruct (IH (Tk.append_output line (Tk.set_output_queue q g))) as [o [q' E]].
        exists o, q'. rewrite E. reflexivity.
      * exists (Tk.output g), (Tk.output_queue g). now destruct g.
Qed.

Lemma tk_process_queue_shape (g : Tk.Gui) :
  exists o q, Tk.process_queue g = Tk.set_output o (Tk.set_output_queue q g).
Proof. apply tk_process_queue_loop_shape. Qed.

(** [start_download] changes the output only: it appends the start
    notice, and the listing notice exactly when it builds the probe. *)
Lemma tk_start_download_shape (g : Tk.Gui) :
  fst (Tk.start_download g) =
  Tk.set_output
    (Tk.output g ++ started_notice
       :: (if negb (tk_is_audio g) && Str.all_space (Tk.format_var g)
           then [listing_notice] else []))
    g.
Proof.
  rewrite all_space_strip.
  unfold Tk.start_download, tk_is_audio, Tk.append_output.
  cbn -[Str.strip output_template String.eqb nl String.append].
  destruct (Tk.download_type g =? "audio")%string; cbn [negb andb fst].
  - reflexivity.
  - destruct (Str.truthy (Str.strip (Tk.format_var g))); cbn [negb fst].
    + reflexivity.
    + cbn -[nl String.append]. now rewrite <- app_assoc.
Qed.

Lemma qt_validate_shape (g : Qt.Gui) :
  exists b, Qt.validate g = Qt.set_download_btn b g.
Proof.
  unfold Qt.validate. destruct (Qt.process_running g); eexists; reflexivity.
Qed.

Lemma qt_process_queue_loop_shape (fuel : nat) (g : Qt.Gui) :
  exists o q, Qt.process_queue_loop fuel g = Qt.set_output o (Qt.set_output_queue q g).
Proof.
  revert g. induction fuel as [|fuel IH]; intro g.
  - exists (Qt.output g), (Qt.output_queue g). now destruct g.
  - cbn [Qt.process_queue_loop].
    destruct (Queue.empty (Qt.output_queue g)).
    + exists (Qt.output g), (Qt.output_queue g). now destruct g.
    + destruct (Queue.get (Qt.output_queue g)) as [[line q]|].
      * destruct (IH (Qt.append_output line (Qt.set_output_queue q g))) as [o [q' E]].
        exists o, q'. rewrite E. reflexivity.
      * exists (Qt.output g), (Qt.output_queue g). now destruct g.
Qed.

Lemma qt_start_download_shape (g : Qt.Gui) :
  fst (Qt.start_download g) =
  Qt.set_output
    (Qt.output g ++ started_notice
       :: (if negb (Qt.radio_audio g) && Str.all_space (Qt.format_entry g)
           then [listing_notice] else []))
    (Qt.set_progress true g).
Proof.
  rewrite all_space_strip.
  unfold Qt.start_download, Qt.append_output.
  cbn -[Str.strip output_template nl String.append].
  destruct (Qt.radio_audio g); cbn [negb andb fst].
  - reflexivity.
  - destruct (Str.truthy (Str.strip (Qt.format_entry g))); cbn [negb fst].
    + reflexivity.
    + cbn -[nl String.append]. now rewrite <- app_assoc.
Qed.



Lemma tk_run_invariant (P : Tk.Config -> Prop) :
  (forall e c c', Tk.step e c = Some c' -> P c -> P c') ->
  forall es c c', Tk.run es c = Some c' -> P c -> P c'.
Proof.
  intros Hstep es. induction es as [|e es IH]; intros c c' H Hc; cbn in H.
  - now inversion H; subst.
  - destruct (Tk.step e c) as [c1|] eqn:S; [|discriminate].
    eapply IH; [exact H|]. eapply Hstep; eassumption.
Qed.

Lemma qt_run_invariant (P : Qt.Config -> Prop) :
  (forall e c c', Qt.step e c = Some c' -> P c -> P c') ->
  forall es c c', Qt.run es c = Some c' -> P c -> P c'.
Proof.
  intros Hstep es. induction es as [|e es IH]; intros c c' H Hc; cbn in H.
  - now inversion H; subst.
  - destruct (Qt.step e c) as [c1|] eqn:S; [|discriminate].
    eapply IH; [exact H|]. eapply Hstep; eassumption.
Qed.



(* ================================================================== *)
(** ** Further properties of [start_download] *)
(* ================================================================== *)

(** X1. The two front-ends duplicate one selection: on forms filled in
    alike they hand the same command to their thread and append the same
    notices to their output. *)
Theorem front_ends_build_same_command (tk : Tk.Gui) (qt : Qt.Gui) :
  same_form tk qt ->
  snd (Tk.start_download tk) = snd (Qt.start_download qt)
  /\ exists notices,
       Tk.output (fst (Tk.start_download tk)) = Tk.output tk ++ notices
       /\ Qt.output (fst (Qt.start_download qt)) = Qt.output qt ++ notices.
Proof.
  intros [Hexe [Hmode [Hurl [Hfmt [Hname Hdir]]]]]. split.
  - rewrite tk_start_download_cmd, qt_start_download_cmd.
    unfold tk_is_audio in Hmode. cbn zeta.
    now rewrite Hexe, Hmode, Hurl, Hfmt, Hname, Hdir.
  - rewrite tk_start_download_shape, qt_start_download_shape.
    rewrite Hmode, Hfmt. eexists. split; reflexivity.
Qed.

Lemma front_ends_build_same_command_witness :
  snd (Tk.start_download
         (tk_form "yt-dlp.exe" "video" "https://x/1" "137+140" "clip" "/d"))
  = snd (Qt.start_download
           (qt_form "yt-dlp.exe" false "https://x/1" "137+140" "clip" "/d")).
Proof.
  exact (proj1 (front_ends_build_same_command
                  (tk_form "yt-dlp.exe" "video" "https://x/1" "137+140" "clip" "/d")
                  (qt_form "yt-dlp.exe" false "https://x/1" "137+140" "clip" "/d")
                  (conj eq_refl (conj eq_refl (conj eq_refl
                     (conj eq_refl (conj eq_refl eq_refl))))))).
Defined.

(** X2. Every start writes the start notice to the output, and the
    listing notice follows exactly when the command built is the probe
    (its second argument is [-F]); nothing else is written and nothing
    already in the output is touched. *)
Theorem listing_notice_iff_probe (tk : Tk.Gui) (qt : Qt.Gui) :
  Tk.output (fst (Tk.start_download tk)) =
    Tk.output tk ++ started_notice
      :: (if (nth 1 (snd (Tk.start_download tk)) "" =? "-F")%string
          then [listing_notice] else [])
  /\ Qt.output (fst (Qt.start_download qt)) =
    Qt.output qt ++ started_notice
      :: (if (nth 1 (snd (Qt.start_download qt)) "" =? "-F")%string
          then [listing_notice] else []).
Proof.
  split.
  - rewrite tk_start_download_shape, tk_start_download_cmd. unfold tk_is_audio.
    cbn zeta.
    destruct (Tk.download_type tk =? "audio")%string; [reflexivity|].
    now destruct (Str.all_space (Tk.format_var tk)).
  - rewrite qt_start_download_shape, qt_start_download_cmd. cbn zeta.
    destruct (Qt.radio_audio qt); [reflexivity|].
    now destruct (Str.all_space (Qt.format_entry qt)).
Qed.

Lemma startswith_append (a b : string) (c : ascii) :
  Str.startswith (String c a +++ b) "/" = Str.startswith (String c a) "/".
Proof.
  unfold Str.startswith. cbn [String.append prefix].
  destruct (ascii_dec "/" c); [|reflexivity].
  destruct a; [destruct b|]; reflexivity.
Qed.

(** X3. Where the download lands: the template is the stripped file
    name (or the title placeholder) with the extension placeholder,
    placed under the chosen folder with exactly one separator between
    them; but a file name that starts with a slash replaces the folder
    altogether. *)
Theorem output_template_cases (folder filename : string) :
  let base :=
    (if Str.all_space filename then "%(title)s" else Str.strip filename)
    +++ ".%(ext)s" in
  output_template folder filename =
  if Str.startswith (Str.strip filename) "/" then base
  else folder
       +++ (if negb (Str.truthy folder) || Str.endswith folder "/" then "" else "/")
       +++ base.
Proof.
  cbn zeta. rewrite output_template_base. unfold OsPath.join, OsPath.sep.
  destruct (Str.all_space filename) eqn:A.
  - apply strip_empty_iff in A. rewrite A. cbn [Str.startswith prefix].
    change (Str.startswith ("%(title)s" +++ ".%(ext)s") "/") with false.
    cbn iota.
    now destruct (negb (Str.truthy folder) || Str.endswith folder "/").
  - destruct (Str.strip filename) as [|c s] eqn:E.
    + apply strip_empty_iff in E. congruence.
    + rewrite startswith_append.
      destruct (Str.startswith (String c s) "/"); [reflexivity|].
      now destruct (negb (Str.truthy folder) || Str.endswith folder "/").
Qed.

(* ================================================================== *)
(** ** Further properties of one job *)
(* ================================================================== *)

(** What a Tk worker left alone does to the window. *)
Lemma tk_worker_effect (cmd : list string) (p : Process) (g : Tk.Gui) :
  Queue.maxsize (Tk.output_queue g) = 0 ->
  Tk.exec_all (Thread.trace (Tk.run_process cmd p)) g =
  Some (Tk.validate
          (Tk.set_progress false
             (Tk.set_process_running false
                (if spawn_ok p then
                   Tk.set_output_queue
                     {| Queue.maxsize := 0;
                        Queue.items := Queue.items (Tk.output_queue g)
                                       ++ stdout_lines p |}
                     (Tk.set_progress true (Tk.set_process_running true g))
                 else Tk.set_progress true (Tk.set_process_running true g))))).
Proof.
  intro Hq. rewrite tk_run_process_trace.
  cbn [app Tk.exec_all Tk.exec_action].
  destruct (spawn_ok p); [|reflexivity].
  cbn [app Tk.exec_all Tk.exec_action].
  rewrite <- app_assoc, tk_exec_all_app, tk_exec_all_puts by exact Hq.
  destruct (read_fails p); reflexivity.
Qed.

(** X4. One Tk job from click to display: when the worker has run to its
    end and the timer has fired once, the output holds what it held,
    then what was still queued, then every line the process printed, in
    order; the queue is empty, the flag is clear, the progress bar has
    stopped and the button is enabled exactly when the form is valid.
    A process that could not be started adds nothing. *)
Theorem tk_job_then_tick (cmd : list string) (p : Process) (g : Tk.Gui) :
  Queue.maxsize (Tk.output_queue g) = 0 ->
  exists g',
    Tk.exec_all (Thread.trace (Tk.run_process cmd p)) g = Some g'
    /\ Tk.output (Tk.process_queue g') =
       Tk.output g ++ Queue.items (Tk.output_queue g)
       ++ (if spawn_ok p then stdout_lines p else [])
    /\ Queue.items (Tk.output_queue (Tk.process_queue g')) = []
    /\ Tk.process_running (Tk.process_queue g') = false
    /\ Tk.progress (Tk.process_queue g') = false
    /\ Tk.download_btn (Tk.process_queue g') =
       Str.truthy (Tk.download_type g) && Str.truthy (Str.strip (Tk.url_var g)).
Proof.
  intro Hq. rewrite (tk_worker_effect cmd p g Hq).
  eexists. split; [reflexivity|].
  set (g1 := Tk.set_progress false (Tk.set_process_running false _)).
  destruct (tk_process_queue_spec (Tk.validate g1)) as [O [I _]].
  destruct (tk_process_queue_shape (Tk.validate g1)) as [o [q E]].
  destruct (tk_validate_shape g1) as [b [f V]].
  split; [|split; [exact I|]].
  - rewrite O, V. subst g1. cbn.
    destruct (spawn_ok p); cbn; [reflexivity | now rewrite app_nil_r].
  - rewrite E.
    cbn [Tk.process_running Tk.progress Tk.download_btn Tk.set_output
         Tk.set_output_queue].
    split; [now rewrite tk_validate_process_running|].
    split; [rewrite V; reflexivity|].
    rewrite tk_validate_button. subst g1.
    destruct (spawn_ok p); reflexivity.
Qed.

Lemma tk_job_then_tick_witness :
  exists g',
    Tk.exec_all (Thread.trace (Tk.run_process ["yt-dlp.exe"] broken_pipe))
      (Tk.initial "yt-dlp.exe" "/tmp") = Some g'
    /\ Tk.output (Tk.process_queue g') = ["a"]
    /\ Queue.items (Tk.output_queue (Tk.process_queue g')) = []
    /\ Tk.process_running (Tk.process_queue g') = false
    /\ Tk.progress (Tk.process_queue g') = false
    /\ Tk.download_btn (Tk.process_queue g') = false.
Proof.
  exact (tk_job_then_tick ["yt-dlp.exe"] broken_pipe
           (Tk.initial "yt-dlp.exe" "/tmp") eq_refl).
Defined.

(* ================================================================== *)
(** ** Further properties of the whole application *)
(* ================================================================== *)

Lemma qt_on_type_changed_shape (g : Qt.Gui) :
  exists b, Qt.on_type_changed g =
            Qt.set_download_btn b
              (Qt.set_format_entry_visible (negb (Qt.radio_audio g)) g).
Proof.
  unfold Qt.on_type_changed.
  destruct (qt_validate_shape
              (Qt.set_format_entry_visible (negb (Qt.radio_audio g)) g)) as [b E].
  exists b. exact E.
Qed.

Lemma qt_on_process_finished_shape (g : Qt.Gui) :
  exists b, Qt.on_process_finished g =
            Qt.set_download_btn b
              (Qt.set_progress false (Qt.set_process_running false g)).
Proof.
  unfold Qt.on_process_finished.
  destruct (qt_validate_shape
              (Qt.set_progress false (Qt.set_process_running false g))) as [b E].
  exists b. exact E.
Qed.

Lemma qt_select_audio_shape (a : bool) (g : Qt.Gui) :
  Qt.select_audio a g = g
  \/ exists b, Qt.select_audio a g =
               Qt.set_download_btn b
                 (Qt.set_format_entry_visible (negb a) (Qt.set_radio_audio a g)).
Proof.
  unfold Qt.select_audio. destruct (Bool.eqb (Qt.radio_audio g) a); [now left|].
  right.
  destruct (qt_on_type_changed_shape (Qt.set_radio_audio a g)) as [b1 E1].
  rewrite E1.
  destruct (qt_on_type_changed_shape
              (Qt.set_download_btn b1
                 (Qt.set_format_entry_visible
                    (negb (Qt.radio_audio (Qt.set_radio_audio a g)))
                    (Qt.set_radio_audio a g)))) as [b2 E2].
  rewrite E2. exists b2. reflexivity.
Qed.

Lemma qt_process_queue_shape (g : Qt.Gui) :
  exists o q, Qt.process_queue g = Qt.set_output o (Qt.set_output_queue q g).
Proof. apply qt_process_queue_loop_shape. Qed.

Lemma qt_process_queue_loop_output (fuel : nat) (g : Qt.Gui) :
  exists sfx, Qt.output (Qt.process_queue_loop fuel g) = Qt.output g ++ sfx.
Proof.
  revert g. induction fuel as [|fuel IH]; intro g.
  - exists []. cbn. now rewrite app_nil_r.
  - cbn [Qt.process_queue_loop].
    destruct (Queue.empty (Qt.output_queue g)).
    + exists []. now rewrite app_nil_r.
    + destruct (Queue.get (Qt.output_queue g)) as [[line q]|].
      * destruct (IH (Qt.append_output line (Qt.set_output_queue q g))) as [sfx E].
        exists (line :: sfx). rewrite E. cbn. now rewrite <- app_assoc.
      * exists []. now rewrite app_nil_r.
Qed.

Lemma tk_exec_action_output (a : Tk.Action) (g g' : Tk.Gui) :
  Tk.exec_action a g = Some g' -> Tk.output g' = Tk.output g.
Proof.
  destruct a; cbn; intro H; try (inversion H; subst; reflexivity).
  - destruct (Queue.put line (Tk.output_queue g)); [|discriminate].
    now inversion H; subst.
  - inversion H; subst. destruct (tk_validate_shape g) as [b [f E]]. now rewrite E.
Qed.

Lemma tk_step_output (e : Tk.Event) (c c' : Tk.Config) :
  Tk.step e c = Some c' ->
  exists sfx, Tk.output (Tk.gui c') = Tk.output (Tk.gui c) ++ sfx.
Proof.
  intro H. destruct e; cbn [Tk.step] in H.
  - inversion H; subst. cbn [Tk.on_gui Tk.gui].
    destruct (tk_validate_shape (Tk.set_url_var s (Tk.gui c))) as [b [f E]].
    rewrite E. exists []. cbn. now rewrite app_nil_r.
  - inversion H; subst. cbn [Tk.on_gui Tk.gui].
    destruct (tk_validate_shape (Tk.set_download_type s (Tk.gui c))) as [b [f E]].
    rewrite E. exists []. cbn. now rewrite app_nil_r.
  - inversion H; subst. exists []. cbn. now rewrite app_nil_r.
  - inversion H; subst. exists []. cbn. now rewrite app_nil_r.
  - inversion H; subst. exists []. cbn. rewrite app_nil_r. now destruct (Str.truthy s).
  - inversion H; subst. unfold Tk.click_download.
    destruct (Tk.download_btn (Tk.gui c)); [|exists []; now rewrite app_nil_r].
    pose proof (tk_start_download_shape (Tk.gui c)) as E.
    destruct (Tk.start_download (Tk.gui c)) as [g cmd]. cbn [fst] in E.
    cbn [Tk.gui]. rewrite E. eexists. reflexivity.
  - inversion H; subst. cbn [Tk.on_gui Tk.gui].
    destruct (tk_process_queue_spec (Tk.gui c)) as [O _]. rewrite O.
    eexists. reflexivity.
  - unfold Tk.worker_step in H.
    destruct (nth_error (Tk.workers c) i) as [w|]; [|discriminate].
    destruct (advance w) as [[a w']|]; [|discriminate].
    destruct (Tk.exec_action a (Tk.gui c)) as [g|] eqn:E; [|discriminate].
    inversion H; subst. cbn [Tk.gui].
    rewrite (tk_exec_action_output _ _ _ E). exists []. now rewrite app_nil_r.
Qed.

Lemma qt_step_output (e : Qt.Event) (c c' : Qt.Config) :
  Qt.step e c = Some c' ->
  exists sfx, Qt.output (Qt.gui c') = Qt.output (Qt.gui c) ++ sfx.
Proof.
  intro H. destruct e; cbn [Qt.step] in H.
  - inversion H; subst. cbn [Qt.on_gui Qt.gui].
    destruct (qt_validate_shape (Qt.set_url_entry s (Qt.gui c))) as [b E].
    rewrite E. exists []. cbn. now rewrite app_nil_r.
  - inversion H; subst. cbn [Qt.on_gui Qt.gui].
    destruct (qt_select_audio_shape b (Qt.gui c)) as [E|[b' E]]; rewrite E;
      exists []; cbn; now rewrite app_nil_r.
  - inversion H; subst. exists []. cbn. now rewrite app_nil_r.
  - inversion H; subst. exists []. cbn. now rewrite app_nil_r.
  - inversion H; subst. exists []. cbn. rewrite app_nil_r. now destruct (Str.truthy s).
  - inversion H; subst. unfold Qt.click_download.
    destruct (Qt.download_btn (Qt.gui c)); [|exists []; now rewrite app_nil_r].
    pose proof (qt_start_download_shape (Qt.gui c)) as E.
    destruct (Qt.start_download (Qt.gui c)) as [g cmd]. cbn [fst] in E.
    cbn [Qt.gui]. rewrite E. eexists. reflexivity.
  - inversion H; subst. cbn [Qt.on_gui Qt.gui]. apply qt_process_queue_loop_output.
  - unfold Qt.dispatch in H. destruct (Qt.posted c) as [|s rest]; [discriminate|].
    inversion H; subst. cbn [Qt.gui]. destruct s; cbn [Qt.slot].
    + eexists. reflexivity.
    + destruct (qt_on_process_finished_shape (Qt.gui c)) as [b E]. rewrite E.
      exists []. cbn. now rewrite app_nil_r.
  - unfold Qt.worker_step in H.
    destruct (nth_error (Qt.workers c) i) as [w|]; [|discriminate].
    destruct (advance w) as [[a w']|]; [|discriminate].
    destruct a; cbn in H; inversion H; subst; exists []; cbn; now rewrite app_nil_r.
Qed.

(** X5. The output is append-only: whatever the user, the timer and the
    workers do, the text already shown stays where it is and new text
    goes after it.  Nothing in either front-end clears or rewrites the
    output. *)
Theorem output_is_append_only
        (tes : list Tk.Event) (tk tk' : Tk.Config)
        (qes : list Qt.Event) (qt qt' : Qt.Config) :
  Tk.run tes tk = Some tk' ->
  Qt.run qes qt = Some qt' ->
  (exists sfx, Tk.output (Tk.gui tk') = Tk.output (Tk.gui tk) ++ sfx)
  /\ (exists sfx, Qt.output (Qt.gui qt') = Qt.output (Qt.gui qt) ++ sfx).
Proof.
  intros Htk Hqt. split.
  - revert tk Htk. induction tes as [|e es IH]; intros c H; cbn in H.
    + inversion H; subst. exists []. now rewrite app_nil_r.
    + destruct (Tk.step e c) as [c1|] eqn:S; [|discriminate].
      destruct (tk_step_output _ _ _ S) as [s1 E1].
      destruct (IH _ H) as [s2 E2].
      exists (s1 ++ s2). now rewrite E2, E1, app_assoc.
  - revert qt Hqt. induction qes as [|e es IH]; intros c H; cbn in H.
    + inversion H; subst. exists []. now rewrite app_nil_r.
    + destruct (Qt.step e c) as [c1|] eqn:S; [|discriminate].
      destruct (qt_step_output _ _ _ S) as [s1 E1].
      destruct (IH _ H) as [s2 E2].
      exists (s1 ++ s2). now rewrite E2, E1, app_assoc.
Qed.

Lemma output_is_append_only_witness :
  exists sfx,
    Tk.output (Tk.gui (tk_after (tk_late_drain ++ [Tk.TimerTick])))
    = Tk.output (Tk.gui (Tk.start "yt-dlp.exe" "/tmp")) ++ sfx.
Proof.
  assert (Htk : Tk.run (tk_late_drain ++ [Tk.TimerTick]) (Tk.start "yt-dlp.exe" "/tmp")
                = Some (tk_after (tk_late_drain ++ [Tk.TimerTick])))
    by (vm_compute; reflexivity).
  assert (Hqt : Qt.run qt_job_done (Qt.start "yt-dlp.exe" "/tmp")
                = Some (qt_after qt_job_done))
    by (vm_compute; reflexivity).
  exact (proj1 (output_is_append_only _ _ _ _ _ _ Htk Hqt)).
Defined.

Lemma qt_validate_sound (g : Qt.Gui) : qt_button_sound (Qt.validate g) = true.
Proof.
  unfold qt_button_sound. rewrite qt_validate_button.
  destruct (qt_validate_shape g) as [b E]. rewrite E.
  cbn [Qt.url_entry Qt.set_download_btn].
  destruct (Qt.process_running g); [reflexivity|].
  now destruct (Str.truthy (Str.strip (Qt.url_entry g))).
Qed.

Lemma qt_validate_window (g : Qt.Gui) :
  Qt.output_queue g = Queue.new ->
  Qt.format_entry_visible g = negb (Qt.radio_audio g) ->
  qt_window_ok (Qt.validate g).
Proof.
  intros Hq Hv. split; [apply qt_validate_sound|].
  destruct (qt_validate_shape g) as [b E]. rewrite E. now split.
Qed.

Lemma qt_select_audio_window (a : bool) (g : Qt.Gui) :
  qt_window_ok g -> qt_window_ok (Qt.select_audio a g).
Proof.
  intros [Hs [Hq Hv]]. unfold Qt.select_audio.
  destruct (Bool.eqb (Qt.radio_audio g) a); [now repeat split|].
  unfold Qt.on_type_changed at 1. apply qt_validate_window.
  - destruct (qt_on_type_changed_shape (Qt.set_radio_audio a g)) as [b E].
    rewrite E. exact Hq.
  - destruct (qt_on_type_changed_shape (Qt.set_radio_audio a g)) as [b E].
    rewrite E. reflexivity.
Qed.

Lemma qt_process_queue_idle (g : Qt.Gui) :
  Qt.output_queue g = Queue.new -> Qt.process_queue g = g.
Proof.
  intro Hq. unfold Qt.process_queue. now rewrite Hq.
Qed.

(** Every step keeps the window well-formed. *)
Lemma qt_step_window (e : Qt.Event) (c c' : Qt.Config) :
  Qt.step e c = Some c' -> qt_window_ok (Qt.gui c) -> qt_window_ok (Qt.gui c').
Proof.
  intros H [Hs [Hq Hv]]. destruct e; cbn [Qt.step] in H.
  - inversion H; subst. cbn [Qt.on_gui Qt.gui]. now apply qt_validate_window.
  - inversion H; subst. cbn [Qt.on_gui Qt.gui].
    apply qt_select_audio_window. now repeat split.
  - inversion H; subst. now repeat split.
  - inversion H; subst. now repeat split.
  - inversion H; subst. cbn [Qt.on_gui Qt.gui].
    destruct (Str.truthy s); now repeat split.
  - inversion H; subst. unfold Qt.click_download.
    destruct (Qt.download_btn (Qt.gui c)); [|now repeat split].
    pose proof (qt_start_download_shape (Qt.gui c)) as E.
    destruct (Qt.start_download (Qt.gui c)) as [g cmd]. cbn [fst] in E.
    cbn [Qt.gui]. rewrite E. now repeat split.
  - inversion H; subst. cbn [Qt.on_gui Qt.gui].
    rewrite qt_process_queue_idle by exact Hq. now repeat split.
  - unfold Qt.dispatch in H. destruct (Qt.posted c) as [|s rest]; [discriminate|].
    inversion H; subst. cbn [Qt.gui]. destruct s; cbn [Qt.slot].
    + now repeat split.
    + unfold Qt.on_process_finished. now apply qt_validate_window.
  - unfold Qt.worker_step in H.
    destruct (nth_error (Qt.workers c) i) as [w|]; [|discriminate].
    destruct (advance w) as [[a w']|]; [|discriminate].
    destruct a; cbn in H; inversion H; subst; now repeat split.
Qed.

Lemma qt_reachable_window (exe folder : string) (c : Qt.Config) :
  Qt.reachable exe folder c -> qt_window_ok (Qt.gui c).
Proof.
  intros [es H].
  eapply (qt_run_invariant (fun c => qt_window_ok (Qt.gui c))); [|exact H|].
  - apply qt_step_window.
  - now repeat split.
Qed.

Lemma qt_start_download_url (g : Qt.Gui) :
  url_of (snd (Qt.start_download g)) = Qt.url_entry g.
Proof.
  rewrite qt_start_download_cmd. cbn zeta. unfold url_of.
  destruct (Qt.radio_audio g); [reflexivity|].
  now destruct (Str.all_space (Qt.format_entry g)).
Qed.


(** The only process a worker spawns is the one of its command. *)
Lemma qt_trace_popen (cmd cmd0 : list string) (p : Process) :
  In (Qt.Popen cmd) (Thread.trace (Qt.run_process cmd0 p)) -> cmd = cmd0.
Proof.
  rewrite qt_run_process_trace. intro H.
  apply in_app_or in H. destruct H as [[H|[]]|H]; [discriminate|].
  apply in_app_or in H. destruct H as [H|[H|[]]]; [|discriminate].
  destruct (spawn_ok p); [|contradiction].
  destruct H as [H|H]; [now inversion H|].
  apply in_app_or in H. destruct H as [H|H].
  - apply in_map_iff in H. destruct H as [l [Hl _]]. discriminate.
  - destruct (read_fails p); [contradiction|]. destruct H as [H|[]]. discriminate.
Qed.


Lemma qt_step_workers_url (e : Qt.Event) (c c' : Qt.Config) :
  Qt.step e c = Some c' ->
  qt_button_sound (Qt.gui c) = true ->
  Forall qt_worker_has_url (Qt.workers c) ->
  Forall qt_worker_has_url (Qt.workers c').
Proof.
  intros H Hs Inv.
  destruct e; cbn [Qt.step] in H; try (inversion H; subst; exact Inv).
  - inversion H; subst. unfold Qt.click_download.
    destruct (Qt.download_btn (Qt.gui c)) eqn:B; [|exact Inv].
    pose proof (qt_start_download_url (Qt.gui c)) as U.
    destruct (Qt.start_download (Qt.gui c)) as [g cmd]. cbn [snd] in U.
    cbn [Qt.workers]. apply Forall_app. split; [exact Inv|].
    constructor; [|constructor]. exists cmd, p. split; [reflexivity|].
    rewrite U. unfold qt_button_sound in Hs. now rewrite B in Hs.
  - unfold Qt.dispatch in H.
    destruct (Qt.posted c); [discriminate|]. inversion H; subst. exact Inv.
  - unfold Qt.worker_step in H.
    destruct (nth_error (Qt.workers c) i) as [w|] eqn:N; [|discriminate].
    destruct (advance w) as [[a w']|] eqn:A; [|discriminate].
    destruct (Qt.exec_action a (Qt.gui c, Qt.posted c)) as [g q].
    inversion H; subst. cbn [Qt.workers].
    apply Forall_replace_nth; [exact Inv|].
    apply nth_error_In in N.
    rewrite Forall_forall in Inv. destruct (Inv w N) as [cmd [p [E U]]].
    exists cmd, p. split; [|exact U].
    now rewrite (advance_keeps_program _ _ _ A).
Qed.

Lemma qt_reachable_workers_url (exe folder : string) (c : Qt.Config) :
  Qt.reachable exe folder c -> Forall qt_worker_has_url (Qt.workers c).
Proof.
  intros [es H].
  assert (G : qt_window_ok (Qt.gui c) /\ Forall qt_worker_has_url (Qt.workers c)).
  { eapply (qt_run_invariant
              (fun c => qt_window_ok (Qt.gui c)
                        /\ Forall qt_worker_has_url (Qt.workers c))); [|exact H|].
    - intros e c0 c1 S [W F]. split.
      + eapply qt_step_window; eassumption.
      + eapply qt_step_workers_url; [exact S | apply W | exact F].
    - split; [now repeat split | constructor]. }
  apply G.
Qed.

(** X6. The Qt front-end never starts the downloader on a blank URL: in
    every state it can reach, the Download button is enabled only while
    the URL field holds more than white space, and every command a
    worker was started with, hence every process spawned, has a URL
    argument that is not blank. *)
Theorem qt_never_starts_without_url (exe folder : string) (c : Qt.Config) :
  Qt.reachable exe folder c ->
  (Qt.download_btn (Qt.gui c) = true ->
   Str.truthy (Str.strip (Qt.url_entry (Qt.gui c))) = true)
  /\ (forall w cmd,
        In w (Qt.workers c) ->
        In (Qt.Popen cmd) (done w ++ todo w) ->
        Str.truthy (Str.strip (url_of cmd)) = true).
Proof.
  intro R. split.
  - destruct (qt_reachable_window _ _ _ R) as [Hs _].
    unfold qt_button_sound in Hs. intro B. now rewrite B in Hs.
  - intros w cmd Hw Hp.
    pose proof (qt_reachable_workers_url _ _ _ R) as F.
    rewrite Forall_forall in F. destruct (F w Hw) as [cmd0 [p [E U]]].
    rewrite E in Hp. apply qt_trace_popen in Hp. now subst.
Qed.

Lemma qt_never_starts_without_url_witness :
  Str.truthy (Str.strip (Qt.url_entry (Qt.gui (qt_after qt_racing_starts)))) = true.
Proof.
  assert (R : Qt.reachable "yt-dlp.exe" "/tmp" (qt_after qt_racing_starts))
    by (exists qt_racing_starts; vm_compute; reflexivity).
  assert (B : Qt.download_btn (Qt.gui (qt_after qt_racing_starts)) = true)
    by (vm_compute; reflexivity).
  exact (proj1 (qt_never_starts_without_url "yt-dlp.exe" "/tmp"
                  (qt_after qt_racing_starts) R) B).
Defined.

(** X8. The queue of the Qt window is dead code: nothing ever puts a
    text on it, so in every reachable state it is the empty queue it was
    created as and a timer tick changes nothing at all. *)
Theorem qt_queue_is_never_used (exe folder : string) (c : Qt.Config) :
  Qt.reachable exe folder c ->
  Qt.output_queue (Qt.gui c) = Queue.new
  /\ Qt.step Qt.TimerTick c = Some c.
Proof.
  intro R. destruct (qt_reachable_window _ _ _ R) as [_ [Hq _]].
  split; [exact Hq|].
  cbn [Qt.step]. unfold Qt.on_gui. rewrite qt_process_queue_idle by exact Hq.
  now destruct c.
Qed.

Lemma qt_queue_is_never_used_witness :
  Qt.output_queue (Qt.gui (qt_after qt_job_done)) = Queue.new
  /\ Qt.step Qt.TimerTick (qt_after qt_job_done) = Some (qt_after qt_job_done).
Proof.
  assert (R : Qt.reachable "yt-dlp.exe" "/tmp" (qt_after qt_job_done))
    by (exists qt_job_done; vm_compute; reflexivity).
  exact (qt_queue_is_never_used "yt-dlp.exe" "/tmp" (qt_after qt_job_done) R).
Defined.

(** X9. In the Qt window the format field is visible exactly in video
    mode, in every reachable state: no job, signal or other input can
    leave it shown in audio mode or hidden in video mode. *)
Theorem qt_format_field_follows_mode (exe folder : string) (c : Qt.Config) :
  Qt.reachable exe folder c ->
  Qt.format_entry_visible (Qt.gui c) = negb (Qt.radio_audio (Qt.gui c)).
Proof.
  intro R. now destruct (qt_reachable_window _ _ _ R) as [_ [_ Hv]].
Qed.

Lemma qt_format_field_follows_mode_witness :
  Qt.format_entry_visible
    (Qt.gui (qt_after (qt_second_start ++ [Qt.SelectAudio false])))
  = negb (Qt.radio_audio
            (Qt.gui (qt_after (qt_second_start ++ [Qt.SelectAudio false])))).
Proof.
  assert (R : Qt.reachable "yt-dlp.exe" "/tmp"
                (qt_after (qt_second_start ++ [Qt.SelectAudio false])))
    by (exists (qt_second_start ++ [Qt.SelectAudio false]); vm_compute; reflexivity).
  exact (qt_format_field_follows_mode "yt-dlp.exe" "/tmp" _ R).
Defined.







(* ================================================================== *)
(** ** Further properties: the flag and the busy indicator *)
(* ================================================================== *)

(** If exactly one element of a list passes a test, a split of the list
    at an element passing the test is the split at that element. *)
Lemma unique_split {A} (f : A -> bool) (pre post d r : list A) (a a' : A) :
  existsb f pre = false -> existsb f post = false -> f a' = true ->
  d ++ a' :: r = pre ++ a :: post ->
  d = pre /\ a' = a /\ r = post.
Proof.
  revert d. induction pre as [|y pre IH]; intros d Hpre Hpost Ha' E.
  - destruct d as [|x d]; cbn in E.
    + inversion E. now repeat split.
    + inversion E; subst.
      assert (existsb f (d ++ a' :: r) = true) as C.
      { rewrite existsb_app. cbn. rewrite Ha'. now rewrite orb_true_r. }
      congruence.
  - cbn in Hpre. apply orb_false_iff in Hpre. destruct Hpre as [Hy Hpre].
    destruct d as [|x d]; cbn in E.
    + inversion E; subst. congruence.
    + inversion E; subst. destruct (IH d Hpre Hpost Ha' H1) as [-> [-> ->]].
      now repeat split.
Qed.

Lemma Exists_replace_nth_new {A} (Q : A -> Prop) (i : nat) (w w' : A) (l : list A) :
  nth_error l i = Some w -> Q w' -> Exists Q (replace_nth i w' l).
Proof.
  revert i. induction l as [|x l IH]; intros i N Hq.
  - destruct i; discriminate.
  - destruct i; cbn in *.
    + now constructor.
    + apply Exists_cons_tl. now apply IH.
Qed.

Lemma Exists_replace_nth_keep {A} (Q : A -> Prop) (i : nat) (w w' : A) (l : list A) :
  Exists Q l -> nth_error l i = Some w -> (Q w -> Q w') ->
  Exists Q (replace_nth i w' l).
Proof.
  intros Hex. revert i. induction Hex as [x l Hx|x l Hex IH]; intros i N Hq.
  - destruct i; cbn in *.
    + inversion N; subst. constructor. now apply Hq.
    + now constructor.
  - destruct i; cbn in *.
    + now apply Exists_cons_tl.
    + apply Exists_cons_tl. now apply IH.
Qed.

Lemma filter_length_zero {A} (f : A -> bool) (l : list A) :
  List.length (filter f l) = 0 -> Forall (fun x => f x = false) l.
Proof.
  induction l as [|x l IH]; cbn; intro H; [constructor|].
  destruct (f x) eqn:E; [discriminate|]. constructor; auto.
Qed.

(** The part of a Tk worker between [progress.start()] and the
    [finally] block holds no write of the flag and no progress call. *)
Lemma tk_body_without (f : Tk.Action -> bool) (cmd : list string) (p : Process) :
  (forall c, f (Tk.Popen c) = false) ->
  (forall l, f (Tk.QueuePut l) = false) ->
  f Tk.ProcessWait = false ->
  existsb f (if spawn_ok p then
               Tk.Popen cmd :: map Tk.QueuePut (stdout_lines p)
               ++ (if read_fails p then [] else [Tk.ProcessWait])
             else []) = false.
Proof.
  intros Hp Hq Hw. destruct (spawn_ok p); [|reflexivity].
  cbn. rewrite Hp, existsb_app. cbn.
  assert (E : existsb f (map Tk.QueuePut (stdout_lines p)) = false).
  { induction (stdout_lines p) as [|l ls IH]; cbn; [reflexivity|]. now rewrite Hq. }
  rewrite E. destruct (read_fails p); cbn; [reflexivity | now rewrite Hw].
Qed.

(** A worker about to write the flag has done nothing yet; one about to
    start the progress bar has only written the flag. *)
Lemma tk_before_flag_write (w w' : Worker Tk.Action) :
  tk_worker_ok w -> advance w = Some (Tk.SetProcessRunning true, w') -> done w = [].
Proof.
  intros [cmd [p E]] A. unfold advance in A.
  destruct (todo w) as [|a rest] eqn:T; [discriminate|]. inversion A; subst.
  rewrite tk_run_process_trace in E. cbn [app] in E.
  match type of E with
  | _ = ?a :: ?post =>
      assert (P : existsb (tk_sets_flag true) post = false)
        by (cbn; rewrite existsb_app, tk_body_without by reflexivity; reflexivity);
      exact (proj1 (unique_split (tk_sets_flag true) [] post (done w) rest a
                      (Tk.SetProcessRunning true) eq_refl P eq_refl E))
  end.
Qed.

Lemma tk_before_progress_start (w w' : Worker Tk.Action) :
  tk_worker_ok w -> advance w = Some (Tk.ProgressStart, w') ->
  done w = [Tk.SetProcessRunning true].
Proof.
  intros [cmd [p E]] A. unfold advance in A.
  destruct (todo w) as [|a rest] eqn:T; [discriminate|]. inversion A; subst.
  rewrite tk_run_process_trace in E. cbn [app] in E.
  match type of E with
  | _ = ?x :: ?a :: ?post =>
      assert (P : existsb tk_is_ProgressStart post = false)
        by (rewrite existsb_app, tk_body_without by reflexivity; reflexivity);
      exact (proj1 (unique_split tk_is_ProgressStart [x] post (done w) rest a
                      Tk.ProgressStart eq_refl P eq_refl E))
  end.
Qed.

(** A worker that has run to its end has reset the flag and stopped the
    progress bar. *)
Lemma tk_finished_worker (w : Worker Tk.Action) :
  tk_worker_ok w -> todo w = [] ->
  tk_in_job w = false /\ tk_animating w = false.
Proof.
  intros [cmd [p E]] T. rewrite T, app_nil_r in E.
  unfold tk_in_job, tk_animating. rewrite E, tk_run_process_trace.
  rewrite !existsb_app. cbn. rewrite !orb_true_r. now split.
Qed.

Lemma advance_done {Act} (w w' : Worker Act) (a : Act) :
  advance w = Some (a, w') -> done w' = done w ++ [a].
Proof.
  unfold advance. destruct (todo w); [discriminate|].
  intro H. now inversion H; subst.
Qed.

Lemma tk_in_job_keep (w w' : Worker Tk.Action) (a : Tk.Action) :
  advance w = Some (a, w') ->
  tk_sets_flag true a = false -> tk_sets_flag false a = false ->
  tk_in_job w' = tk_in_job w.
Proof.
  intros A H1 H2. unfold tk_in_job. rewrite (advance_done _ _ _ A), !existsb_app.
  cbn. now rewrite H1, H2, !orb_false_r.
Qed.

Lemma tk_animating_keep (w w' : Worker Tk.Action) (a : Tk.Action) :
  advance w = Some (a, w') ->
  tk_is_ProgressStart a = false -> tk_is_ProgressStop a = false ->
  tk_animating w' = tk_animating w.
Proof.
  intros A H1 H2. unfold tk_animating. rewrite (advance_done _ _ _ A), !existsb_app.
  cbn. now rewrite H1, H2, !orb_false_r.
Qed.

(** What a step that is not a worker's leaves alone: the flag, the
    progress bar and the workers there are; it can only add a worker that
    has not started. *)
Lemma tk_user_step_frame (e : Tk.Event) (c c' : Tk.Config) :
  tk_is_WorkerStep e = false ->
  Tk.step e c = Some c' ->
  Tk.process_running (Tk.gui c') = Tk.process_running (Tk.gui c)
  /\ Tk.progress (Tk.gui c') = Tk.progress (Tk.gui c)
  /\ exists extra, Tk.workers c' = Tk.workers c ++ extra
                   /\ Forall (fun w => done w = []) extra.
Proof.
  intros W H. destruct e; cbn [Tk.step] in H; try discriminate W.
  - inversion H; subst. cbn [Tk.on_gui Tk.gui Tk.workers].
    destruct (tk_validate_shape (Tk.set_url_var s (Tk.gui c))) as [b [f E]].
    rewrite E. repeat split. exists []. split; [now rewrite app_nil_r | constructor].
  - inversion H; subst. cbn [Tk.on_gui Tk.gui Tk.workers].
    destruct (tk_validate_shape (Tk.set_download_type s (Tk.gui c))) as [b [f E]].
    rewrite E. repeat split. exists []. split; [now rewrite app_nil_r | constructor].
  - inversion H; subst. repeat split. exists []. cbn. split; [now rewrite app_nil_r | constructor].
  - inversion H; subst. repeat split. exists []. cbn. split; [now rewrite app_nil_r | constructor].
  - inversion H; subst. cbn [Tk.on_gui Tk.gui Tk.workers].
    destruct (Str.truthy s); repeat split; exists [];
      (split; [now rewrite app_nil_r | constructor]).
  - inversion H; subst. unfold Tk.click_download.
    destruct (Tk.download_btn (Tk.gui c)).
    + pose proof (tk_start_download_shape (Tk.gui c)) as E.
      destruct (Tk.start_download (Tk.gui c)) as [g cmd]. cbn [fst] in E.
      cbn [Tk.gui Tk.workers]. rewrite E. repeat split. eexists. split; [reflexivity|].
      constructor; [reflexivity | constructor].
    + repeat split. exists []. split; [now rewrite app_nil_r | constructor].
  - inversion H; subst. cbn [Tk.on_gui Tk.gui Tk.workers].
    destruct (tk_process_queue_shape (Tk.gui c)) as [o [q E]]. rewrite E.
    repeat split. exists []. split; [now rewrite app_nil_r | constructor].
Qed.

Lemma tk_step_flags (e : Tk.Event) (c c' : Tk.Config) :
  Tk.step e c = Some c' -> tk_flags_ok c -> tk_flags_ok c'.
Proof.
  intros H [Wok [F G]].
  split; [eapply tk_step_workers; eassumption|].
  destruct (tk_is_WorkerStep e) eqn:W.
  - destruct e; try discriminate W. cbn [Tk.step] in H.
    unfold Tk.worker_step in H.
    destruct (nth_error (Tk.workers c) i) as [w|] eqn:N; [|discriminate].
    destruct (advance w) as [[a w']|] eqn:A; [|discriminate].
    destruct (Tk.exec_action a (Tk.gui c)) as [g|] eqn:X; [|discriminate].
    inversion H; subst. cbn [Tk.gui Tk.workers].
    assert (Ww : tk_worker_ok w).
    { rewrite Forall_forall in Wok. apply Wok. eapply nth_error_In; eassumption. }
    destruct a; cbn in X.
    + (* the flag is written *)
      inversion X; subst. cbn [Tk.process_running Tk.progress Tk.set_process_running].
      split.
      * intro Hb. subst b.
        apply (Exists_replace_nth_new _ _ w _ _ N).
        unfold tk_in_job. rewrite (advance_done _ _ _ A).
        now rewrite (tk_before_flag_write _ _ Ww A).
      * intro Hp. apply (Exists_replace_nth_keep _ _ w _ _ (G Hp) N).
        now rewrite (tk_animating_keep _ _ _ A).
    + (* progress.start() *)
      inversion X; subst. cbn [Tk.process_running Tk.progress Tk.set_progress].
      split.
      * intro Hb. apply (Exists_replace_nth_keep _ _ w _ _ (F Hb) N).
        now rewrite (tk_in_job_keep _ _ _ A).
      * intros _. apply (Exists_replace_nth_new _ _ w _ _ N).
        unfold tk_animating. rewrite (advance_done _ _ _ A).
        now rewrite (tk_before_progress_start _ _ Ww A).
    + inversion X; subst. split.
      * intro Hb. apply (Exists_replace_nth_keep _ _ w _ _ (F Hb) N).
        now rewrite (tk_in_job_keep _ _ _ A).
      * intro Hp. apply (Exists_replace_nth_keep _ _ w _ _ (G Hp) N).
        now rewrite (tk_animating_keep _ _ _ A).
    + destruct (Queue.put line (Tk.output_queue (Tk.gui c))); [|discriminate].
      inversion X; subst. cbn [Tk.process_running Tk.progress Tk.set_output_queue].
      split.
      * intro Hb. apply (Exists_replace_nth_keep _ _ w _ _ (F Hb) N).
        now rewrite (tk_in_job_keep _ _ _ A).
      * intro Hp. apply (Exists_replace_nth_keep _ _ w _ _ (G Hp) N).
        now rewrite (tk_animating_keep _ _ _ A).
    + inversion X; subst. split.
      * intro Hb. apply (Exists_replace_nth_keep _ _ w _ _ (F Hb) N).
        now rewrite (tk_in_job_keep _ _ _ A).
      * intro Hp. apply (Exists_replace_nth_keep _ _ w _ _ (G Hp) N).
        now rewrite (tk_animating_keep _ _ _ A).
    + (* progress.stop() *)
      inversion X; subst. cbn [Tk.process_running Tk.progress Tk.set_progress].
      split.
      * intro Hb. apply (Exists_replace_nth_keep _ _ w _ _ (F Hb) N).
        now rewrite (tk_in_job_keep _ _ _ A).
      * discriminate.
    + (* validate() *)
      inversion X; subst.
      destruct (tk_validate_shape (Tk.gui c)) as [b [f E]]. rewrite E.
      cbn [Tk.process_running Tk.progress Tk.set_format_entry Tk.set_download_btn].
      split.
      * intro Hb. apply (Exists_replace_nth_keep _ _ w _ _ (F Hb) N).
        now rewrite (tk_in_job_keep _ _ _ A).
      * intro Hp. apply (Exists_replace_nth_keep _ _ w _ _ (G Hp) N).
        now rewrite (tk_animating_keep _ _ _ A).
  - destruct (tk_user_step_frame _ _ _ W H) as [Ef [Ep [extra [Ew _]]]].
    rewrite Ef, Ep, Ew. split; intro Hx; apply Exists_app; left; auto.
Qed.

Lemma tk_reachable_flags (exe folder : string) (c : Tk.Config) :
  Tk.reachable exe folder c -> tk_flags_ok c.
Proof.
  intros [es H].
  eapply (tk_run_invariant tk_flags_ok); [apply tk_step_flags | exact H |].
  split; [constructor|]. split; discriminate.
Qed.

(** X10. The Tk flag and progress bar never claim a job that is not
    there: in every reachable state, if [process_running] is set then
    some worker is between its write of the flag and its reset of it, and
    if the bar is animating then some worker is between its start and
    its stop of it.  So whenever no worker thread is left running the
    flag is clear and the bar is still, however many jobs there were and
    however they were interleaved or failed. *)
Theorem tk_flag_is_never_stale (exe folder : string) (c : Tk.Config) :
  Tk.reachable exe folder c ->
  (Tk.process_running (Tk.gui c) = true ->
   Exists (fun w => tk_in_job w = true) (Tk.workers c))
  /\ (Tk.progress (Tk.gui c) = true ->
      Exists (fun w => tk_animating w = true) (Tk.workers c))
  /\ (Tk.running_jobs c = 0 ->
      Tk.process_running (Tk.gui c) = false /\ Tk.progress (Tk.gui c) = false).
Proof.
  intro R. destruct (tk_reachable_flags _ _ _ R) as [Wok [F G]].
  split; [exact F|]. split; [exact G|].
  intro Z. apply filter_length_zero in Z.
  assert (D : Forall (fun w => tk_in_job w = false /\ tk_animating w = false)
                     (Tk.workers c)).
  { rewrite Forall_forall in *. intros w Hw. apply tk_finished_worker; [auto|].
    specialize (Z w Hw). unfold Tk.job_running in Z. now destruct (todo w). }
  rewrite Forall_forall in D. split.
  - destruct (Tk.process_running (Tk.gui c)); [|reflexivity].
    apply Exists_exists in F; [|reflexivity]. destruct F as [w [Hw Hj]].
    destruct (D w Hw). congruence.
  - destruct (Tk.progress (Tk.gui c)); [|reflexivity].
    apply Exists_exists in G; [|reflexivity]. destruct G as [w [Hw Hj]].
    destruct (D w Hw). congruence.
Qed.

Lemma tk_flag_is_never_stale_witness :
  Tk.process_running (Tk.gui (tk_after tk_late_drain)) = false
  /\ Tk.progress (Tk.gui (tk_after tk_late_drain)) = false.
Proof.
  assert (R : Tk.reachable "yt-dlp.exe" "/tmp" (tk_after tk_late_drain))
    by (exists tk_late_drain; vm_compute; reflexivity).
  assert (Z : Tk.running_jobs (tk_after tk_late_drain) = 0)
    by (vm_compute; reflexivity).
  exact (proj2 (proj2 (tk_flag_is_never_stale "yt-dlp.exe" "/tmp" _ R)) Z).
Defined.

Lemma qt_body_without (f : Qt.Action -> bool) (cmd : list string) (p : Process) :
  (forall c, f (Qt.Popen c) = false) ->
  (forall l, f (Qt.Emit (Qt.OutputSignal l)) = false) ->
  f Qt.ProcessWait = false ->
  existsb f (if spawn_ok p then
               Qt.Popen cmd
               :: map (fun l => Qt.Emit (Qt.OutputSignal l)) (stdout_lines p)
               ++ (if read_fails p then [] else [Qt.ProcessWait])
             else []) = false.
Proof.
  intros Hp Hq Hw. destruct (spawn_ok p); [|reflexivity].
  cbn. rewrite Hp, existsb_app. cbn.
  assert (E : existsb f (map (fun l => Qt.Emit (Qt.OutputSignal l)) (stdout_lines p))
              = false).
  { induction (stdout_lines p) as [|l ls IH]; cbn; [reflexivity|]. now rewrite Hq. }
  rewrite E. destruct (read_fails p); cbn; [reflexivity | now rewrite Hw].
Qed.

Lemma qt_before_flag_write (w w' : Worker Qt.Action) :
  qt_worker_ok w -> advance w = Some (Qt.SetProcessRunning true, w') -> done w = [].
Proof.
  intros [cmd [p E]] A. unfold advance in A.
  destruct (todo w) as [|a rest] eqn:T; [discriminate|]. inversion A; subst.
  rewrite qt_run_process_trace in E. cbn [app] in E.
  match type of E with
  | _ = ?a :: ?post =>
      assert (P : existsb (qt_sets_flag true) post = false)
        by (rewrite existsb_app, qt_body_without by reflexivity; reflexivity);
      exact (proj1 (unique_split (qt_sets_flag true) [] post (done w) rest a
                      (Qt.SetProcessRunning true) eq_refl P eq_refl E))
  end.
Qed.

Lemma qt_finished_worker (w : Worker Qt.Action) :
  qt_worker_ok w -> todo w = [] ->
  qt_in_job w = false /\ qt_unfinished w = false.
Proof.
  intros [cmd [p E]] T. rewrite T, app_nil_r in E.
  unfold qt_in_job, qt_unfinished. rewrite E, qt_run_process_trace.
  rewrite !existsb_app. cbn. rewrite !orb_true_r. now split.
Qed.

Lemma qt_in_job_keep (w w' : Worker Qt.Action) (a : Qt.Action) :
  advance w = Some (a, w') ->
  qt_sets_flag true a = false -> qt_emits_finished a = false ->
  qt_in_job w' = qt_in_job w.
Proof.
  intros A H1 H2. unfold qt_in_job. rewrite (advance_done _ _ _ A), !existsb_app.
  cbn. now rewrite H1, H2, !orb_false_r.
Qed.

Lemma qt_unfinished_keep (w w' : Worker Qt.Action) (a : Qt.Action) :
  advance w = Some (a, w') ->
  qt_emits_finished a = false ->
  qt_unfinished w' = qt_unfinished w.
Proof.
  intros A H2. unfold qt_unfinished. rewrite (advance_done _ _ _ A), !existsb_app.
  cbn. now rewrite H2, !orb_false_r.
Qed.

Lemma qt_step_flags (e : Qt.Event) (c c' : Qt.Config) :
  Qt.step e c = Some c' -> qt_flags_ok c -> qt_flags_ok c'.
Proof.
  intros H [Wok [F G]].
  split; [eapply qt_step_workers; eassumption|].
  destruct e; cbn [Qt.step] in H.
  - inversion H; subst. cbn [Qt.on_gui Qt.gui Qt.workers Qt.posted].
    destruct (qt_validate_shape (Qt.set_url_entry s (Qt.gui c))) as [b E].
    rewrite E. split; assumption.
  - inversion H; subst. cbn [Qt.on_gui Qt.gui Qt.workers Qt.posted].
    destruct (qt_select_audio_shape b (Qt.gui c)) as [E|[b' E]]; rewrite E;
      split; assumption.
  - inversion H; subst. split; assumption.
  - inversion H; subst. split; assumption.
  - inversion H; subst. cbn [Qt.on_gui Qt.gui Qt.workers Qt.posted].
    destruct (Str.truthy s); split; assumption.
  - (* a click *)
    inversion H; subst. unfold Qt.click_download.
    destruct (Qt.download_btn (Qt.gui c)); [|split; assumption].
    pose proof (qt_start_download_shape (Qt.gui c)) as E.
    destruct (Qt.start_download (Qt.gui c)) as [g cmd]. cbn [fst] in E.
    cbn [Qt.gui Qt.workers Qt.posted]. rewrite E.
    cbn [Qt.process_running Qt.progress Qt.set_output Qt.set_progress]. split.
    + intro Hb. destruct (F Hb) as [Hex|Hin]; [left|now right].
      apply Exists_app. now left.
    + intros _. left. apply Exists_app. right. now constructor.
  - inversion H; subst. cbn [Qt.on_gui Qt.gui Qt.workers Qt.posted].
    destruct (qt_process_queue_shape (Qt.gui c)) as [o [q E]]. rewrite E.
    split; assumption.
  - (* a signal is delivered *)
    unfold Qt.dispatch in H. destruct (Qt.posted c) as [|s rest] eqn:P; [discriminate|].
    inversion H; subst. cbn [Qt.gui Qt.workers Qt.posted].
    destruct s; cbn [Qt.slot].
    + cbn [Qt.process_running Qt.progress Qt.append_output Qt.set_output]. split.
      * intro Hb. destruct (F Hb) as [Hex|[Hin|Hin]];
          [now left | discriminate | now right].
      * intro Hp. destruct (G Hp) as [Hex|[Hin|Hin]];
          [now left | discriminate | now right].
    + destruct (qt_on_process_finished_shape (Qt.gui c)) as [b E]. rewrite E.
      split; discriminate.
  - (* a worker step *)
    unfold Qt.worker_step in H.
    destruct (nth_error (Qt.workers c) i) as [w|] eqn:N; [|discriminate].
    destruct (advance w) as [[a w']|] eqn:A; [|discriminate].
    assert (Ww : qt_worker_ok w).
    { rewrite Forall_forall in Wok. apply Wok. eapply nth_error_In; eassumption. }
    destruct a as [b|cmd|s|]; cbn in H; inversion H; subst;
      cbn [Qt.gui Qt.workers Qt.posted Qt.process_running Qt.progress
           Qt.set_process_running].
    + split.
      * intro Hb. subst b. left.
        apply (Exists_replace_nth_new _ _ w _ _ N).
        unfold qt_in_job. rewrite (advance_done _ _ _ A).
        now rewrite (qt_before_flag_write _ _ Ww A).
      * intro Hp. destruct (G Hp) as [Hex|Hin]; [left|now right].
        apply (Exists_replace_nth_keep _ _ w _ _ Hex N).
        now rewrite (qt_unfinished_keep _ _ _ A).
    + split.
      * intro Hb. destruct (F Hb) as [Hex|Hin]; [left|now right].
        apply (Exists_replace_nth_keep _ _ w _ _ Hex N).
        now rewrite (qt_in_job_keep _ _ _ A).
      * intro Hp. destruct (G Hp) as [Hex|Hin]; [left|now right].
        apply (Exists_replace_nth_keep _ _ w _ _ Hex N).
        now rewrite (qt_unfinished_keep _ _ _ A).
    + destruct s as [text|].
      * split.
        -- intro Hb. destruct (F Hb) as [Hex|Hin]; [left|right; apply in_or_app; now left].
           apply (Exists_replace_nth_keep _ _ w _ _ Hex N).
           now rewrite (qt_in_job_keep _ _ _ A).
        -- intro Hp. destruct (G Hp) as [Hex|Hin]; [left|right; apply in_or_app; now left].
           apply (Exists_replace_nth_keep _ _ w _ _ Hex N).
           now rewrite (qt_unfinished_keep _ _ _ A).
      * split; intros _; right; apply in_or_app; right; now left.
    + split.
      * intro Hb. destruct (F Hb) as [Hex|Hin]; [left|now right].
        apply (Exists_replace_nth_keep _ _ w _ _ Hex N).
        now rewrite (qt_in_job_keep _ _ _ A).
      * intro Hp. destruct (G Hp) as [Hex|Hin]; [left|now right].
        apply (Exists_replace_nth_keep _ _ w _ _ Hex N).
        now rewrite (qt_unfinished_keep _ _ _ A).
Qed.

Lemma qt_reachable_flags (exe folder : string) (c : Qt.Config) :
  Qt.reachable exe folder c -> qt_flags_ok c.
Proof.
  intros [es H].
  eapply (qt_run_invariant qt_flags_ok); [apply qt_step_flags | exact H |].
  split; [constructor|]. split; discriminate.
Qed.

(** X11. The Qt flag and progress bar never claim a job that is not
    there: in every reachable state, if [process_running] is set then
    some worker has written the flag and not yet emitted its finished
    signal, or a finished signal is waiting to be delivered; the same
    holds of the progress bar and the workers that have not emitted
    theirs.  So once every worker has ended and every signal has been
    delivered, the flag is clear and the bar is hidden. *)
Theorem qt_flag_is_never_stale (exe folder : string) (c : Qt.Config) :
  Qt.reachable exe folder c ->
  (Qt.process_running (Qt.gui c) = true ->
   Exists (fun w => qt_in_job w = true) (Qt.workers c)
   \/ In Qt.ProcessFinished (Qt.posted c))
  /\ (Qt.progress (Qt.gui c) = true ->
      Exists (fun w => qt_unfinished w = true) (Qt.workers c)
      \/ In Qt.ProcessFinished (Qt.posted c))
  /\ (Qt.running_jobs c = 0 -> Qt.posted c = [] ->
      Qt.process_running (Qt.gui c) = false /\ Qt.progress (Qt.gui c) = false).
Proof.
  intro R. destruct (qt_reachable_flags _ _ _ R) as [Wok [F G]].
  split; [exact F|]. split; [exact G|].
  intros Z P. apply filter_length_zero in Z. rewrite P in F, G.
  assert (D : Forall (fun w => qt_in_job w = false /\ qt_unfinished w = false)
                     (Qt.workers c)).
  { rewrite Forall_forall in *. intros w Hw. apply qt_finished_worker; [auto|].
    specialize (Z w Hw). unfold Qt.job_running in Z. now destruct (todo w). }
  rewrite Forall_forall in D. split.
  - destruct (Qt.process_running (Qt.gui c)); [|reflexivity].
    destruct (F eq_refl) as [Hex|[]].
    apply Exists_exists in Hex. destruct Hex as [w [Hw Hj]].
    destruct (D w Hw). congruence.
  - destruct (Qt.progress (Qt.gui c)); [|reflexivity].
    destruct (G eq_refl) as [Hex|[]].
    apply Exists_exists in Hex. destruct Hex as [w [Hw Hj]].
    destruct (D w Hw). congruence.
Qed.

Lemma qt_flag_is_never_stale_witness :
  Qt.process_running (Qt.gui (qt_after (qt_job_done ++ [Qt.Dispatch]))) = false
  /\ Qt.progress (Qt.gui (qt_after (qt_job_done ++ [Qt.Dispatch]))) = false.
Proof.
  assert (R : Qt.reachable "yt-dlp.exe" "/tmp" (qt_after (qt_job_done ++ [Qt.Dispatch])))
    by (exists (qt_job_done ++ [Qt.Dispatch]); vm_compute; reflexivity).
  assert (Z : Qt.running_jobs (qt_after (qt_job_done ++ [Qt.Dispatch])) = 0)
    by (vm_compute; reflexivity).
  assert (P : Qt.posted (qt_after (qt_job_done ++ [Qt.Dispatch])) = [])
    by (vm_compute; reflexivity).
  exact (proj2 (proj2 (qt_flag_is_never_stale "yt-dlp.exe" "/tmp" _ R)) Z P).
Defined.

(* ================================================================== *)
(** ** Further properties: every job can be brought to its end *)
(* ================================================================== *)


















(* ================================================================== *)
(** ** Further properties: one job at a time *)
(* ================================================================== *)






Lemma filter_map_none {A B} (f : B -> bool) (g : A -> B) (l : list A) :
  (forall x, f (g x) = false) -> filter f (map g l) = [].
Proof.
  intro H. induction l as [|x l IH]; cbn; [reflexivity|]. now rewrite H.
Qed.

Lemma existsb_map_none {A B} (f : B -> bool) (g : A -> B) (l : list A) :
  (forall x, f (g x) = false) -> existsb f (map g l) = false.
Proof.
  intro H. induction l as [|x l IH]; cbn; [reflexivity|]. now rewrite H.
Qed.

Lemma existsb_prefix {A} (f : A -> bool) (d t : list A) :
  existsb f d = true -> existsb f (d ++ t) = true.
Proof. intro H. now rewrite existsb_app, H. Qed.

Lemma tk_worker_discipline (w : Worker Tk.Action) :
  tk_worker_ok w ->
  List.length (filter Tk.is_Popen (done w ++ todo w)) <= 1
  /\ (existsb tk_is_QueuePut (done w) = true -> existsb Tk.is_Popen (done w) = true)
  /\ (existsb Tk.is_ProcessWait (done w) = true -> existsb Tk.is_Popen (done w) = true).
Proof.
  intros [cmd [p E]]. rewrite tk_run_process_trace in E. split.
  - rewrite E, !filter_app. cbn [filter Tk.is_Popen app List.length].
    destruct (spawn_ok p); [|cbn; lia].
    cbn [filter Tk.is_Popen]. rewrite filter_app, filter_map_none by reflexivity.
    destruct (read_fails p); cbn; lia.
  - destruct (spawn_ok p).
    + destruct (done w) as [|a [|b [|x d]]]; cbn in E; inversion E; subst;
        split; intro H; try discriminate H; reflexivity.
    + split; intro H; apply existsb_prefix with (t := todo w) in H;
        rewrite E in H; discriminate H.
Qed.

Lemma qt_worker_discipline (w : Worker Qt.Action) :
  qt_worker_ok w ->
  List.length (filter Qt.is_Popen (done w ++ todo w)) <= 1
  /\ List.length (filter qt_emits_finished (done w ++ todo w)) = 1
  /\ (existsb qt_emits_output (done w) = true -> existsb Qt.is_Popen (done w) = true).
Proof.
  intros [cmd [p E]]. rewrite qt_run_process_trace in E. split; [|split].
  - rewrite E, !filter_app. cbn [filter Qt.is_Popen app List.length].
    destruct (spawn_ok p); [|cbn; lia].
    cbn [filter Qt.is_Popen]. rewrite filter_app, filter_map_none by reflexivity.
    destruct (read_fails p); cbn; lia.
  - rewrite E, !filter_app. cbn [filter qt_emits_finished app List.length].
    destruct (spawn_ok p); [|reflexivity].
    cbn [filter qt_emits_finished]. rewrite filter_app, filter_map_none by reflexivity.
    destruct (read_fails p); reflexivity.
  - destruct (spawn_ok p).
    + destruct (done w) as [|a [|b d]]; cbn in E; inversion E; subst;
        intro H; try discriminate H; reflexivity.
    + intro H. apply existsb_prefix with (t := todo w) in H.
      rewrite E in H. discriminate H.
Qed.

(** X15. What a worker never does: in every reachable state, a worker's
    whole program holds at most one spawn, so one click never starts two
    processes; it has put no line on the relay, and has waited for no
    process, unless it has spawned one; and a Qt worker's program holds
    exactly one emission of the finished signal, so every job is
    reported finished once and only once. *)
Theorem worker_spawns_once_relays_after
        (exe folder : string) (tkc : Tk.Config) (qtc : Qt.Config) :
  Tk.reachable exe folder tkc ->
  Qt.reachable exe folder qtc ->
  (forall w, In w (Tk.workers tkc) ->
     List.length (filter Tk.is_Popen (done w ++ todo w)) <= 1
     /\ (existsb tk_is_QueuePut (done w) = true -> existsb Tk.is_Popen (done w) = true)
     /\ (existsb Tk.is_ProcessWait (done w) = true ->
         existsb Tk.is_Popen (done w) = true))
  /\ (forall w, In w (Qt.workers qtc) ->
        List.length (filter Qt.is_Popen (done w ++ todo w)) <= 1
        /\ List.length (filter qt_emits_finished (done w ++ todo w)) = 1
        /\ (existsb qt_emits_output (done w) = true ->
            existsb Qt.is_Popen (done w) = true)).
Proof.
  intros Rtk Rqt.
  apply tk_reachable_workers in Rtk. apply qt_reachable_workers in Rqt.
  rewrite Forall_forall in Rtk, Rqt. split; intros w Hw.
  - apply tk_worker_discipline. auto.
  - apply qt_worker_discipline. auto.
Qed.

Lemma worker_spawns_once_relays_after_witness :
  List.length
    (filter Qt.is_Popen
       (done (nth 0 (Qt.workers (qt_after qt_racing_starts)) (spawn_thread (Thread.ret tt)))
        ++ todo (nth 0 (Qt.workers (qt_after qt_racing_starts))
                   (spawn_thread (Thread.ret tt))))) <= 1.
Proof.
  assert (Rtk : Tk.reachable "yt-dlp.exe" "/tmp" (tk_after tk_racing_starts))
    by (exists tk_racing_starts; vm_compute; reflexivity).
  assert (Rqt : Qt.reachable "yt-dlp.exe" "/tmp" (qt_after qt_racing_starts))
    by (exists qt_racing_starts; vm_compute; reflexivity).
  apply (proj2 (worker_spawns_once_relays_after "yt-dlp.exe" "/tmp" _ _ Rtk Rqt)).
  vm_compute. left. reflexivity.
Defined.

(* ================================================================== *)
(** ** Further properties: settings and themes *)
(* ================================================================== *)












(* ================================================================== *)
(** ** Further properties: the format field of the Tk window *)
(* ================================================================== *)

(** X20. In the Tk window [validate] returns early while the flag is
    set, before it shows or hides the format field.  So a change of mode
    made during a job disables the button and leaves the format field as
    it was, whatever the new mode; the field follows the mode again, and
    the button its form, when the worker's own [finally] block has reset
    the flag and called [validate]. *)
Theorem tk_format_field_waits_for_job (mode : string) (g : Tk.Gui) :
  Tk.process_running g = true ->
  let g1 := Tk.validate (Tk.set_download_type mode g) in
  Tk.format_entry g1 = Tk.format_entry g
  /\ Tk.download_btn g1 = false
  /\ exists g2,
       Tk.exec_all [Tk.SetProcessRunning false; Tk.ProgressStop; Tk.Validate] g1
       = Some g2
       /\ Tk.format_entry g2 = (mode =? "video")%string
       /\ Tk.download_btn g2 =
          Str.truthy mode && Str.truthy (Str.strip (Tk.url_var g)).
Proof.
  intros R g1.
  assert (E : g1 = Tk.set_download_btn false (Tk.set_download_type mode g)).
  { subst g1. unfold Tk.validate. cbn [Tk.process_running Tk.set_download_type].
    now rewrite R. }
  rewrite E. split; [reflexivity|]. split; [reflexivity|].
  eexists. split; [reflexivity|]. split.
  - unfold Tk.validate. cbn -[String.eqb Str.strip].
    now destruct (mode =? "video")%string.
  - now rewrite tk_validate_button.
Qed.

Lemma tk_format_field_waits_for_job_witness :
  Tk.format_entry
    (Tk.validate (Tk.set_download_type "video" (Tk.gui (tk_after tk_second_start))))
  = Tk.format_entry (Tk.gui (tk_after tk_second_start)).
Proof.
  assert (R : Tk.process_running (Tk.gui (tk_after tk_second_start)) = true)
    by (vm_compute; reflexivity).
  exact (proj1 (tk_format_field_waits_for_job "video"
                  (Tk.gui (tk_after tk_second_start)) R)).
Defined.
